(** * xarray-tutorial: the CI workflow and the notebooks

    The repository holds a GitHub Actions workflow ("Pull Request Build") and
    Jupyter notebooks.  Both are embedded as the documents they are (a YAML
    tree, JSON trees), together with the part of their interpreters the
    properties below depend on: trigger filtering, step conditions and
    concurrency groups for the workflow; top-to-bottom execution of the code
    cells over symbolic values for the notebooks. *)

From Stdlib Require Import Ascii.
From stdpp Require Import base option list strings gmap.

Local Open Scope string_scope.
#[local] Set Warnings "-register-all".

(** ** Text helpers *)

Module Text.

Definition dq : string := String (Ascii.ascii_of_nat 34) EmptyString.
Definition nl : string := String (Ascii.ascii_of_nat 10) EmptyString.

(** A source line that ends in a line feed. *)
Definition ln (s : string) : string := s +:+ nl.

(** [strip_prefix p s] removes [p] from the front of [s]. *)
Fixpoint strip_prefix (p s : string) : option string :=
  match p with
  | EmptyString => Some s
  | String a p' =>
      match s with
      | EmptyString => None
      | String b s' => if Ascii.eqb a b then strip_prefix p' s' else None
      end
  end.

(** [cut sep s] splits [s] around the first occurrence of [sep]. *)
Fixpoint cut (sep s : string) : option (string * string) :=
  match strip_prefix sep s with
  | Some rest => Some (EmptyString, rest)
  | None =>
      match s with
      | EmptyString => None
      | String c s' =>
          match cut sep s' with
          | Some (a, b) => Some (String c a, b)
          | None => None
          end
      end
  end.

Definition is_space (c : ascii) : bool := Ascii.eqb c " "%char.

Fixpoint ltrim (s : string) : string :=
  match s with
  | String c s' => if is_space c then ltrim s' else s
  | EmptyString => EmptyString
  end.

Fixpoint rtrim (s : string) : string :=
  match s with
  | EmptyString => EmptyString
  | String c s' =>
      match rtrim s' with
      | EmptyString => if is_space c then EmptyString else String c EmptyString
      | r => String c r
      end
  end.

Definition trim (s : string) : string := rtrim (ltrim s).

(** Words of [s], separated by single spaces. *)
Fixpoint words_go (cur : string) (s : string) : list string :=
  match s with
  | EmptyString => [String.rev cur]
  | String c s' =>
      if is_space c then String.rev cur :: words_go EmptyString s'
      else words_go (String c cur) s'
  end.

Definition words (s : string) : list string :=
  filter (fun w => w <> EmptyString) (words_go EmptyString s).

Definition lower_ascii (c : ascii) : ascii :=
  let n := Ascii.nat_of_ascii c in
  if (65 <=? n)%nat && (n <=? 90)%nat then Ascii.ascii_of_nat (n + 32) else c.

Fixpoint lower (s : string) : string :=
  match s with
  | EmptyString => EmptyString
  | String c s' => String (lower_ascii c) (lower s')
  end.

Definition is_prefix (p s : string) : bool :=
  match strip_prefix p s with Some _ => true | None => false end.

(** The lines of a text; a final line feed does not open a new line. *)
Fixpoint lines_go (cur : string) (s : string) : list string :=
  match s with
  | EmptyString =>
      match cur with EmptyString => [] | _ => [String.rev cur] end
  | String c s' =>
      if Ascii.eqb c (Ascii.ascii_of_nat 10)
      then String.rev cur :: lines_go EmptyString s'
      else lines_go (String c cur) s'
  end.

Definition lines (s : string) : list string := lines_go EmptyString s.

Fixpoint concat_all (l : list string) : string :=
  match l with
  | [] => EmptyString
  | s :: l' => s +:+ concat_all l'
  end.

End Text.

(** ** YAML documents *)

Module Yaml.

(** Scalars are kept as their text; a block scalar keeps its line feeds. *)
Inductive yaml :=
| Scalar (s : string)
| Seq (xs : list yaml)
| Map (kvs : list (string * yaml)).

Fixpoint assoc {A} (k : string) (kvs : list (string * A)) : option A :=
  match kvs with
  | [] => None
  | (k', v) :: kvs' => if String.eqb k k' then Some v else assoc k kvs'
  end.

Definition get (k : string) (y : yaml) : option yaml :=
  match y with
  | Map kvs => assoc k kvs
  | _ => None
  end.

Fixpoint get_path (ks : list string) (y : yaml) : option yaml :=
  match ks with
  | [] => Some y
  | k :: ks' => match get k y with Some y' => get_path ks' y' | None => None end
  end.

Definition scalar (y : yaml) : option string :=
  match y with Scalar s => Some s | _ => None end.

Definition items (y : yaml) : list yaml :=
  match y with Seq xs => xs | _ => [] end.

Definition keys (y : yaml) : list string :=
  match y with Map kvs => map fst kvs | _ => [] end.

(** The scalar entries of a sequence. *)
Definition scalars (y : yaml) : list string :=
  omap scalar (items y).

Definition get_scalar (k : string) (y : yaml) : option string :=
  match get k y with Some v => scalar v | None => None end.

End Yaml.

(** ** The workflow file (.github/workflows: "Pull Request Build") *)

Module Workflow.
Import Text Yaml.

Definition checkout_step : yaml :=
  Map [("name", Scalar "Checkout repository");
       ("if", Scalar "github.event.action != 'closed'");
       ("uses", Scalar "actions/checkout@v4")].

Definition cache_step : yaml :=
  Map [("name", Scalar "Setup JupyterBook Cache");
       ("if", Scalar "github.event.action != 'closed'");
       ("uses", Scalar "actions/cache@v4");
       ("with", Map [("path", Scalar "_build");
                     ("key", Scalar "jupyterbook-20250701")])].

Definition setup_pixi_step : yaml :=
  Map [("uses", Scalar "./.github/actions/setup-pixi")].

Definition build_step : yaml :=
  Map [("name", Scalar "Build JupyterBook");
       ("if", Scalar "github.event.action != 'closed'");
       ("run", Scalar (ln "jupyter-book build ./ --warningiserror --keep-going"))].

Definition dump_logs_step : yaml :=
  Map [("name", Scalar "Dump Build Logs");
       ("if", Scalar "github.event.action != 'closed'");
       ("run", Scalar (ln "if (test -a _build/html/reports/*log); then cat _build/html/reports/*log ; fi"))].

Definition upload_step : yaml :=
  Map [("name", Scalar "Upload artifact");
       ("if", Scalar "github.event.action != 'closed'");
       ("uses", Scalar "actions/upload-artifact@v4");
       ("with", Map [("name", Scalar "html");
                     ("path", Scalar "_build/html")])].

Definition pull_request_trigger : yaml :=
  Map [("types", Seq [Scalar "opened"; Scalar "synchronize";
                      Scalar "reopened"; Scalar "closed"]);
       ("paths-ignore", Seq [Scalar ".devcontainer/**"])].

Definition preview_job : yaml :=
  Map [("runs-on", Scalar "ubuntu-latest");
       ("steps", Seq [checkout_step; cache_step; setup_pixi_step;
                      build_step; dump_logs_step; upload_step])].

Definition pull_request_build : yaml :=
  Map [("name", Scalar "Pull Request Build");
       ("on", Map [("pull_request", pull_request_trigger)]);
       ("concurrency", Map [
          ("group", Scalar "${{ github.workflow }}-${{ github.ref }}");
          ("cancel-in-progress", Scalar "true")]);
       ("jobs", Map [("preview", preview_job)])].

Definition jobs (wf : yaml) : list (string * yaml) :=
  match get "jobs" wf with Some (Map kvs) => kvs | _ => [] end.

Definition steps (job : yaml) : list yaml :=
  match get "steps" job with Some y => items y | None => [] end.

Definition preview_steps : list yaml :=
  match get_path ["jobs"; "preview"] pull_request_build with
  | Some job => steps job
  | None => []
  end.

Definition local_action (st : yaml) : bool :=
  match get_scalar "uses" st with
  | Some u => is_prefix "./" u
  | None => false
  end.

(** *** The [github] context and [if:] expressions *)

Record context := {
  event_name : string;
  event_action : string;
  workflow : string;
  ref : string }.

Definition ctx_lookup (path : string) (c : context) : option string :=
  if String.eqb path "github.event_name" then Some (event_name c)
  else if String.eqb path "github.event.action" then Some (event_action c)
  else if String.eqb path "github.workflow" then Some (workflow c)
  else if String.eqb path "github.ref" then Some (ref c)
  else None.

(** An operand is a literal in single quotes or a context path. *)
Definition operand (w : string) (c : context) : option string :=
  match strip_prefix "'" w with
  | Some rest =>
      match cut "'" rest with
      | Some (lit, EmptyString) => Some lit
      | _ => None
      end
  | None => ctx_lookup w c
  end.

(** Expressions of the form [a == b] and [a != b]; string comparison ignores
    case.  Anything else is not evaluated. *)
Definition eval_if (e : string) (c : context) : option bool :=
  match words e with
  | [a; op; b] =>
      match operand a c, operand b c with
      | Some x, Some y =>
          let same := String.eqb (lower x) (lower y) in
          if String.eqb op "==" then Some same
          else if String.eqb op "!=" then Some (negb same)
          else None
      | _, _ => None
      end
  | _ => None
  end.

(** *** Running the steps of a job *)

Inductive status := Skipped | Succeeded | Failed.

#[global] Instance status_eq_dec : EqDecision status.
Proof. solve_decision. Defined.

(** A step without [if:] runs under [success()]; an [if:] expression that
    names no status function is conjoined with [success()]. *)
Definition step_enabled (ok : bool) (c : context) (st : yaml) : option bool :=
  match get "if" st with
  | None => Some ok
  | Some (Scalar e) =>
      match eval_if e c with
      | Some b => Some (ok && b)
      | None => None
      end
  | Some _ => None
  end.

Section Job.
(** Whether a step that is run succeeds is decided outside the workflow. *)
Variable succeeds : yaml -> bool.
Variable c : context.

Fixpoint run_steps (ok : bool) (sts : list yaml) : option (list status) :=
  match sts with
  | [] => Some []
  | st :: sts' =>
      match step_enabled ok c st with
      | None => None
      | Some false =>
          match run_steps ok sts' with
          | Some r => Some (Skipped :: r)
          | None => None
          end
      | Some true =>
          let good := succeeds st in
          match run_steps (ok && good) sts' with
          | Some r => Some ((if good then Succeeded else Failed) :: r)
          | None => None
          end
      end
  end.

Definition run_job (job : yaml) : option (list status) :=
  run_steps true (steps job).
End Job.


(** *** Triggers: [on.<event>.types] and [on.<event>.paths-ignore] *)

Record event := {
  ev_name : string;
  ev_action : string;
  ev_paths : list string }.

Fixpoint any_suffix (f : string -> bool) (s : string) : bool :=
  f s ||
  match s with
  | EmptyString => false
  | String _ s' => any_suffix f s'
  end.

(** Suffixes reached without crossing a [/]. *)
Fixpoint any_segment_suffix (f : string -> bool) (s : string) : bool :=
  f s ||
  match s with
  | EmptyString => false
  | String c s' => if Ascii.eqb c "/" then false else any_segment_suffix f s'
  end.

(** Filter patterns: [*] matches within a path segment, [**] across
    segments, every other character matches itself. *)
Fixpoint glob (p s : string) {struct p} : bool :=
  match p with
  | EmptyString => match s with EmptyString => true | _ => false end
  | String a p' =>
      if Ascii.eqb a "*" then
        match p' with
        | String b p'' =>
            if Ascii.eqb b "*" then any_suffix (glob p'') s
            else any_segment_suffix (glob p') s
        | EmptyString => any_segment_suffix (glob p') s
        end
      else
        match s with
        | String b s' => Ascii.eqb a b && glob p' s'
        | EmptyString => false
        end
  end.

Fixpoint star_free (s : string) : bool :=
  match s with
  | EmptyString => true
  | String c s' => negb (Ascii.eqb c "*") && star_free s'
  end.

Definition ignored (patterns : list string) (path : string) : bool :=
  existsb (fun p => glob p path) patterns.

Definition default_pull_request_types : list string :=
  ["opened"; "synchronize"; "reopened"].

Definition activity_ok (cfg : yaml) (ev : event) : bool :=
  match get "types" cfg with
  | Some y => bool_decide (ev_action ev ∈ scalars y)
  | None =>
      if String.eqb (ev_name ev) "pull_request"
      then bool_decide (ev_action ev ∈ default_pull_request_types)
      else true
  end.

(** With [paths-ignore], the workflow runs when some changed path matches none
    of the patterns. *)
Definition paths_ok (cfg : yaml) (ev : event) : bool :=
  match get "paths-ignore" cfg with
  | Some y => existsb (fun p => negb (ignored (scalars y) p)) (ev_paths ev)
  | None => true
  end.

Definition triggers (wf : yaml) (ev : event) : bool :=
  match get_path ["on"; ev_name ev] wf with
  | Some cfg => activity_ok cfg ev && paths_ok cfg ev
  | None => false
  end.

(** *** Concurrency groups *)

Record run := {
  run_id : nat;
  run_event : event;
  run_ref : string }.

Definition workflow_name (wf : yaml) : string :=
  default EmptyString (get_scalar "name" wf).

Definition context_of (wf : yaml) (r : run) : context :=
  {| event_name := ev_name (run_event r);
     event_action := ev_action (run_event r);
     workflow := workflow_name wf;
     ref := run_ref r |}.

(** Substitution of the [${{ path }}] placeholders of a string. *)
Fixpoint expand (fuel : nat) (c : context) (s : string) : option string :=
  match fuel with
  | O => None
  | S n =>
      match cut "${{" s with
      | None => Some s
      | Some (pre, rest) =>
          match cut "}}" rest with
          | None => None
          | Some (e, post) =>
              match ctx_lookup (trim e) c, expand n c post with
              | Some v, Some r => Some (pre +:+ v +:+ r)
              | _, _ => None
              end
          end
      end
  end.

Definition group_of (wf : yaml) (r : run) : option string :=
  match get_path ["concurrency"; "group"] wf with
  | Some (Scalar t) => expand (S (String.length t)) (context_of wf r) t
  | _ => None
  end.

Definition cancel_in_progress (wf : yaml) : bool :=
  match get_path ["concurrency"; "cancel-in-progress"] wf with
  | Some (Scalar b) => String.eqb b "true"
  | _ => false
  end.

Definition same_group (wf : yaml) (r r' : run) : bool :=
  match group_of wf r, group_of wf r' with
  | Some g, Some g' => String.eqb g g'
  | _, _ => false
  end.

(** The runs of the workflow known to the scheduler. *)
Record queue := {
  in_progress : list run;
  pending : list run;
  cancelled : list run }.

Definition idle : queue :=
  {| in_progress := []; pending := []; cancelled := [] |}.

Inductive sched_event :=
| Start (r : run)
| Finish (id : nat).

(** A new run of a group that has a run in progress either cancels it
    ([cancel-in-progress: true]) or waits, replacing any run already waiting
    in the group. *)
Definition enqueue (wf : yaml) (r : run) (q : queue) : queue :=
  let same := same_group wf r in
  let other := fun x => negb (same x) in
  if existsb same (in_progress q) then
    if cancel_in_progress wf then
      {| in_progress := r :: List.filter other (in_progress q);
         pending := List.filter other (pending q);
         cancelled := List.filter same (in_progress q) ++
                      List.filter same (pending q) ++ cancelled q |}
    else
      {| in_progress := in_progress q;
         pending := r :: List.filter other (pending q);
         cancelled := List.filter same (pending q) ++ cancelled q |}
  else
    {| in_progress := r :: in_progress q;
       pending := pending q;
       cancelled := cancelled q |}.

Definition finish (wf : yaml) (id : nat) (q : queue) : queue :=
  let rest := List.filter (fun x => negb (Nat.eqb (run_id x) id)) (in_progress q) in
  let ready := fun x => negb (existsb (same_group wf x) rest) in
  {| in_progress := List.filter ready (pending q) ++ rest;
     pending := List.filter (fun x => negb (ready x)) (pending q);
     cancelled := cancelled q |}.

Definition sched_step (wf : yaml) (q : queue) (e : sched_event) : queue :=
  match e with
  | Start r => enqueue wf r q
  | Finish id => finish wf id q
  end.

Definition schedule (wf : yaml) (es : list sched_event) : queue :=
  fold_left (sched_step wf) es idle.

(** *** What the steps do *)

Inductive role :=
| Checkout
| Cache
| Upload
| LocalAction
| OtherAction
| Build
| Script
| Malformed.

#[global] Instance role_eq_dec : EqDecision role.
Proof. solve_decision. Defined.

Definition role_of (st : yaml) : role :=
  match get_scalar "uses" st, get_scalar "run" st with
  | Some u, None =>
      if is_prefix "actions/checkout@" u then Checkout
      else if is_prefix "actions/cache@" u then Cache
      else if is_prefix "actions/upload-artifact@" u then Upload
      else if is_prefix "./" u then LocalAction
      else OtherAction
  | None, Some script =>
      if is_prefix "jupyter-book build " script then Build else Script
  | _, _ => Malformed
  end.

Definition script (st : yaml) : list string :=
  match get_scalar "run" st with
  | Some text => lines text
  | None => []
  end.

(** Words that make a shell script branch, loop or chain commands. *)
Definition shell_control : list string :=
  ["if"; "then"; "elif"; "else"; "fi"; "for"; "while"; "until"; "do"; "done";
   "case"; "esac"; "&&"; "||"; ";"; "|"; "&"].

Definition branches (st : yaml) : bool :=
  existsb (fun l => existsb (fun w => bool_decide (w ∈ shell_control)) (words l))
    (script st).

Definition guarded (st : yaml) : bool :=
  bool_decide ("if" ∈ keys st).

(** Keys with which a job or a step retries, tolerates, fans out or orders
    work. *)
Definition retry_keys : list string :=
  ["continue-on-error"; "strategy"; "timeout-minutes"; "needs"].

Definition retries (y : yaml) : bool :=
  existsb (fun k => bool_decide (k ∈ retry_keys)) (keys y).

(** A value with no [${{ }}] placeholder. *)
Definition fixed (s : string) : bool :=
  match cut "${{" s with Some _ => false | None => true end.

(** *** The shape of a job *)

Definition job_names (wf : yaml) : list string := map fst (jobs wf).

(** A workflow whose only job, [preview], is one build command set between a
    cache step and an upload step, with no condition, branch or retry of its
    own. *)
Definition thin_build_job (wf : yaml) : Prop :=
  job_names wf = ["preview"] /\
  exists job, get_path ["jobs"; "preview"] wf = Some job /\
    (forall st, st ∈ steps job -> role_of st ∈ [Build; Cache; Upload]) /\
    (forall st, st ∈ steps job -> role_of st = Build ->
       length (script st) = 1 /\ branches st = false) /\
    (forall st, st ∈ steps job -> guarded st = false /\ branches st = false) /\
    (forall st, st ∈ job :: steps job -> retries st = false).

(** What the scheduler maintains: nothing waits, and the runs in progress
    have pairwise different refs. *)
Definition exclusive (q : queue) : Prop :=
  pending q = [] /\ NoDup (map run_ref (in_progress q)).

(** *** Sample events and runs *)

Definition readme_opened : event :=
  {| ev_name := "pull_request"; ev_action := "opened";
     ev_paths := [".devcontainer/devcontainer.json"; "README.md"] |}.

Definition opened_context : context :=
  {| event_name := "pull_request"; event_action := "opened";
     workflow := "Pull Request Build"; ref := "refs/pull/7/merge" |}.

Definition closed_context : context :=
  {| event_name := "pull_request"; event_action := "closed";
     workflow := "Pull Request Build"; ref := "refs/pull/7/merge" |}.

Definition pr7 (id : nat) : run :=
  {| run_id := id;
     run_event := {| ev_name := "pull_request"; ev_action := "synchronize";
                     ev_paths := ["README.md"] |};
     run_ref := "refs/pull/7/merge" |}.

(** *** A job as a plain sequence *)

(** Statuses of steps that carry no condition of their own: each one runs
    when all before it succeeded. *)
Fixpoint cascade (ok : bool) (results : list bool) : list status :=
  match results with
  | [] => []
  | b :: results' =>
      (if ok then if b then Succeeded else Failed else Skipped)
      :: cascade (ok && b) results'
  end.

Definition closed_action (c : context) : bool :=
  String.eqb (lower (event_action c)) "closed".

(** An outcome in which the build fails and everything else succeeds. *)
Definition build_fails (st : yaml) : bool :=
  negb (bool_decide (role_of st = Build)).

Definition pr8 (id : nat) : run :=
  {| run_id := id;
     run_event := {| ev_name := "pull_request"; ev_action := "opened";
                     ev_paths := ["README.md"] |};
     run_ref := "refs/pull/8/merge" |}.

Definition pr7_closed (id : nat) : run :=
  {| run_id := id;
     run_event := {| ev_name := "pull_request"; ev_action := "closed";
                     ev_paths := ["README.md"] |};
     run_ref := "refs/pull/7/merge" |}.

End Workflow.

(** ** JSON documents *)

Module Json.

Inductive json :=
| JNull
| JBool (b : bool)
| JNum (n : Z)
| JStr (s : string)
| JArr (xs : list json)
| JObj (kvs : list (string * json)).

Definition field (k : string) (j : json) : option json :=
  match j with
  | JObj kvs => Yaml.assoc k kvs
  | _ => None
  end.

Definition fields (j : json) : list string :=
  match j with JObj kvs => map fst kvs | _ => [] end.

Definition elements (j : json) : option (list json) :=
  match j with JArr xs => Some xs | _ => None end.

Definition str (j : json) : option string :=
  match j with JStr s => Some s | _ => None end.

Definition num (j : json) : option Z :=
  match j with JNum n => Some n | _ => None end.

Definition is_obj (j : json) : bool :=
  match j with JObj _ => true | _ => false end.

Definition is_arr (j : json) : bool :=
  match j with JArr _ => true | _ => false end.

Definition is_str (j : json) : bool :=
  match j with JStr _ => true | _ => false end.

End Json.

(** ** Notebooks (nbformat 4) *)

Module Notebook.
Import Text Json.

(** The "Basic Computation" notebook. *)
Definition basic_computation : json :=
  JObj [
    ("cells", JArr [
      JObj [
        ("cell_type", JStr "markdown");
        ("metadata", JObj []);
        ("source", JArr [
          JStr (ln "(fundamentals/basic-computation)=");
          JStr (ln "# Basic Computation");
          JStr nl;
          JStr (ln "In this lesson, we discuss how to do scientific computations with xarray");
          JStr (ln "objects. Our learning goals are as follows. By the end of the lesson, we will be");
          JStr (ln "able to:");
          JStr nl;
          JStr (ln "- Apply basic arithmetic and numpy functions to xarray DataArrays / Dataset.");
          JStr (ln "- Use Xarray's label-aware reduction operations (e.g. `mean`, `sum`) weighted");
          JStr (ln "  reductions.");
          JStr (ln "- Apply arbitrary functions to Xarray data via `apply_ufunc`.");
          JStr "- Use Xarray's broadcasting to compute on arrays of different dimensionality."])];
      JObj [
        ("cell_type", JStr "code");
        ("execution_count", JNull);
        ("metadata", JObj []);
        ("outputs", JArr []);
        ("source", JArr [
          JStr (ln "import numpy as np");
          JStr (ln "import xarray as xr");
          JStr (ln "import matplotlib.pyplot as plt");
          JStr nl;
          JStr (ln "# Ask Xarray to not show data values by default");
          JStr (ln "xr.set_options(display_expand_data=False)");
          JStr nl;
          JStr "%config InlineBackend.figure_format='retina'"])];
      JObj [
        ("cell_type", JStr "markdown");
        ("metadata", JObj []);
        ("source", JArr [
          JStr (ln "## Example Dataset");
          JStr nl;
          JStr (ln "First we load a dataset. We will use the");
          JStr (ln "[NOAA Extended Reconstructed Sea Surface Temperature (ERSST) v5](https://www.ncei.noaa.gov/products/extended-reconstructed-sst)");
          JStr "product, a widely used and trusted gridded compilation of of historical data going back to 1854."])];
      JObj [
        ("cell_type", JStr "code");
        ("execution_count", JNull);
        ("metadata", JObj []);
        ("outputs", JArr []);
        ("source", JArr [
          JStr (ln ("ds = xr.tutorial.load_dataset(" +:+ dq +:+ "ersstv5" +:+ dq +:+ ")"));
          JStr "ds"])];
      JObj [
        ("cell_type", JStr "markdown");
        ("metadata", JObj []);
        ("source", JArr [
          JStr (ln "Let's do some basic visualizations of the data, just to make sure it looks");
          JStr (ln "reasonable.")])];
      JObj [
        ("cell_type", JStr "code");
        ("execution_count", JNull);
        ("metadata", JObj []);
        ("outputs", JArr []);
        ("source", JArr [
          JStr "ds.sst.isel(time=0).plot(vmin=-2, vmax=30);"])];
      JObj [
        ("cell_type", JStr "markdown");
        ("metadata", JObj []);
        ("source", JArr [
          JStr (ln "## Arithmetic");
          JStr nl;
          JStr (ln "Xarray dataarrays and datasets work seamlessly with arithmetic operators and");
          JStr (ln "numpy array functions.");
          JStr nl;
          JStr (ln "For example, imagine we want to convert the temperature (given in Celsius) to");
          JStr (ln "Kelvin:")])];
      JObj [
        ("cell_type", JStr "code");
        ("execution_count", JNull);
        ("metadata", JObj [
          ("tags", JArr [])]);
        ("outputs", JArr []);
        ("source", JArr [
          JStr (ln "sst_kelvin = ds.sst + 273.15");
          JStr "sst_kelvin"])];
      JObj [
        ("cell_type", JStr "markdown");
        ("metadata", JObj []);
        ("source", JArr [
          JStr (ln "The dimensions and coordinates were preserved following the operation.");
          JStr nl;
          JStr (ln ("<div class=" +:+ dq +:+ "alert alert-warning" +:+ dq +:+ ">"));
          JStr (ln "    <strong>Warning:</strong> Although many xarray datasets have a <code>units</code> attribute, which is used in plotting,");
          JStr (ln ("    Xarray does not inherently understand units. However, xarray can integrate with <a href=" +:+ dq +:+ "https://pint.readthedocs.io/en/0.12/" +:+ dq +:+ ">pint</a>, which provides full unit-aware operations. See <a href=" +:+ dq +:+ "https://pint-xarray.readthedocs.io" +:+ dq +:+ ">pint-xarray</a> for more."));
          JStr (ln "</div>");
          JStr nl;
          JStr nl;
          JStr (ln "## Applying functions");
          JStr nl;
          JStr (ln "We can apply more complex functions to Xarray objects.");
          JStr (ln "Imagine we wanted to compute the following expression as a function of SST");
          JStr (ln "($\Theta$) in Kelvin:");
          JStr nl;
          JStr (ln "$$ f(\Theta) =  0.5 \ln(\Theta^2) $$")])];
      JObj [
        ("cell_type", JStr "code");
        ("execution_count", JNull);
        ("metadata", JObj []);
        ("outputs", JArr []);
        ("source", JArr [
          JStr (ln "f = 0.5 * np.log(sst_kelvin**2)");
          JStr "f"])];
      JObj [
        ("cell_type", JStr "markdown");
        ("metadata", JObj []);
        ("source", JArr [
          JStr (ln "## Applying Arbitrary Functions");
          JStr nl;
          JStr (ln ("It's awesome that we can call `np.log(ds)` and have it " +:+ dq +:+ "just work" +:+ dq +:+ ". However, not"));
          JStr (ln "all third party libraries work this way.");
          JStr nl;
          JStr "numpy's [nan_to_num](https://numpy.org/devdocs/reference/generated/numpy.nan_to_num.html) for example will return a numpy array"])];
      JObj [
        ("cell_type", JStr "code");
        ("execution_count", JNull);
        ("metadata", JObj [
          ("tags", JArr [
            JStr "output_scroll"])]);
        ("outputs", JArr []);
        ("source", JArr [
          JStr "np.nan_to_num(ds.sst, nan=0)"])];
      JObj [
        ("cell_type", JStr "markdown");
        ("metadata", JObj []);
        ("source", JArr [
          JStr (ln "It would be nice to keep our dimensions and coordinates. ");
          JStr nl;
          JStr "We can accomplish this with [xr.apply_ufunc](https://docs.xarray.dev/en/stable/generated/xarray.apply_ufunc.html#xarray.apply_ufunc)"])];
      JObj [
        ("cell_type", JStr "code");
        ("execution_count", JNull);
        ("metadata", JObj []);
        ("outputs", JArr []);
        ("source", JArr [
          JStr ("xr.apply_ufunc(np.nan_to_num, ds.sst, kwargs={" +:+ dq +:+ "nan" +:+ dq +:+ ": 0})")])];
      JObj [
        ("cell_type", JStr "markdown");
        ("metadata", JObj []);
        ("source", JArr [
          JStr (ln "```{tip}");
          JStr (ln "`apply_ufunc` is a powerful function. It has many options for doing more complicated things. Unfortunately, we don't have time to go into more depth here. See the [`apply_ufunc` tutorial material](https://tutorial.xarray.dev/advanced/apply_ufunc/apply_ufunc.html) for more.");
          JStr (ln "```")])];
      JObj [
        ("cell_type", JStr "markdown");
        ("metadata", JObj []);
        ("source", JArr [
          JStr (ln "## Reductions");
          JStr nl;
          JStr (ln ("Reductions are functions that reduce the dimensionlity of our dataset. For example taking the mean sea surface temperature along `time` of our 3D data, we " +:+ dq +:+ "reduce" +:+ dq +:+ " the  `time` dimension and are left with a 2D array."));
          JStr nl;
          JStr "Just like in numpy, we can reduce xarray DataArrays along any number of axes."])];
      JObj [
        ("cell_type", JStr "code");
        ("execution_count", JNull);
        ("metadata", JObj []);
        ("outputs", JArr []);
        ("source", JArr [
          JStr (ln "sst = ds.sst");
          JStr "sst.mean(axis=0)"])];
      JObj [
        ("cell_type", JStr "markdown");
        ("metadata", JObj []);
        ("source", JArr [
          JStr (ln "However, rather than performing reductions by specifying `axis` (as in numpy), we can instead perform");
          JStr (ln "them using _dimension names_. This turns out to be a huge convenience, particularly in");
          JStr (ln "complex calculations it can be hard to remember which axis corresponds to ");
          JStr "which dimension name:"])];
      JObj [
        ("cell_type", JStr "code");
        ("execution_count", JNull);
        ("metadata", JObj []);
        ("outputs", JArr []);
        ("source", JArr [
          JStr ("sst.mean(dim=" +:+ dq +:+ "time" +:+ dq +:+ ")")])];
      JObj [
        ("cell_type", JStr "markdown");
        ("metadata", JObj []);
        ("source", JArr [
          JStr "You can reduce over multiple dimensions"])];
      JObj [
        ("cell_type", JStr "code");
        ("execution_count", JNull);
        ("metadata", JObj []);
        ("outputs", JArr []);
        ("source", JArr [
          JStr ("sst.mean([" +:+ dq +:+ "lat" +:+ dq +:+ ", " +:+ dq +:+ "time" +:+ dq +:+ "])")])];
      JObj [
        ("cell_type", JStr "markdown");
        ("metadata", JObj []);
        ("source", JArr [
          JStr "If no dimension is specified, the reduction is applied across all dimensions."])];
      JObj [
        ("cell_type", JStr "code");
        ("execution_count", JNull);
        ("metadata", JObj []);
        ("outputs", JArr []);
        ("source", JArr [
          JStr "sst.mean()"])];
      JObj [
        ("cell_type", JStr "markdown");
        ("metadata", JObj []);
        ("source", JArr [
          JStr (ln "All of the standard numpy reductions (e.g. `min`, `max`, `sum`, `std`, etc.) are");
          JStr (ln "available on both [Datasets](https://docs.xarray.dev/en/stable/api.html#aggregation) and [DataArrays](https://docs.xarray.dev/en/stable/api.html#id6).")])];
      JObj [
        ("cell_type", JStr "markdown");
        ("metadata", JObj [
          ("tags", JArr [])]);
        ("source", JArr [
          JStr (ln "::::{admonition} Exercise");
          JStr (ln ":class: tip");
          JStr (ln "Take the mean of `sst` in both longitude and latitude. Make a simple timeseries plot.");
          JStr nl;
          JStr (ln ":::{admonition} Solution");
          JStr (ln ":class: dropdown");
          JStr nl;
          JStr (ln "```python");
          JStr (ln ("sst.mean([" +:+ dq +:+ "lat" +:+ dq +:+ ", " +:+ dq +:+ "lon" +:+ dq +:+ "]).plot();"));
          JStr (ln "```");
          JStr (ln ":::");
          JStr (ln "::::")])]]);
    ("metadata", JObj [
      ("language_info", JObj [
        ("codemirror_mode", JObj [
          ("name", JStr "ipython");
          ("version", JNum 3%Z)]);
        ("file_extension", JStr ".py");
        ("mimetype", JStr "text/x-python");
        ("name", JStr "python");
        ("nbconvert_exporter", JStr "python");
        ("pygments_lexer", JStr "ipython3")])]);
    ("nbformat", JNum 4%Z);
    ("nbformat_minor", JNum 4%Z)].

(** The "Intermediate Xarray DataStructures" notebook. *)
Definition data_structures : json :=
  JObj [
    ("cells", JArr [
      JObj [
        ("attachments", JObj []);
        ("cell_type", JStr "markdown");
        ("metadata", JObj []);
        ("source", JArr [
          JStr (ln "# Intermediate Xarray DataStructures");
          JStr (ln ("<img src=" +:+ dq +:+ "https://docs.xarray.dev/en/stable/_static/Xarray_Logo_RGB_Final.svg" +:+ dq +:+ " align=" +:+ dq +:+ "right" +:+ dq +:+ " width=" +:+ dq +:+ "30%" +:+ dq +:+ ">"));
          JStr nl;
          JStr nl;
          JStr (ln "In this lesson, we cover the basics of Xarray data structures. By the");
          JStr (ln "end of the lesson, we will be able to:");
          JStr nl;
          JStr (ln "- Understand the basic data structures in Xarray");
          JStr (ln "- Inspect `DataArray` and `Dataset` objects.");
          JStr (ln "- Select Data using Dataset Coordinates");
          JStr (ln "- Understand that these Datastructures generalize across fields");
          JStr nl;
          JStr nl;
          JStr (ln "We'll start by reviewing the various components of the Xarray data model, represented here visually:");
          JStr nl;
          JStr (ln ("<img src=" +:+ dq +:+ "https://docs.xarray.dev/en/stable/_images/dataset-diagram.png" +:+ dq +:+ " align=" +:+ dq +:+ "center" +:+ dq +:+ " width=" +:+ dq +:+ "50%" +:+ dq +:+ ">"));
          JStr nl;
          JStr nl;
          JStr nl;
          JStr (ln "## Variable");
          JStr nl;
          JStr (ln "At the the core of everything Xarray works with Variables:");
          JStr nl;
          JStr (ln "Variables hold arbitrary metadata, dimension names, and an Array of data");
          JStr nl;
          JStr (ln "![image.png](../_static/variable.png)");
          JStr nl;
          JStr (ln "## DataArray");
          JStr nl;
          JStr (ln "A DataArray is lowest level object you will regularly interact with. It is a collection of 1 variable containing the data, and optionally Variables associated with the dimensions (coords)");
          JStr nl;
          JStr (ln "![image.png](../_static/dataarray.png)");
          JStr nl;
          JStr nl;
          JStr (ln "## Dataset");
          JStr nl;
          JStr (ln "A Dataset is also a collection of Variables. However it can contain multiple data variables. All dimensions MUST be compatible. When we access one of the data variables a DataArray will automatically created for us.");
          JStr nl;
          JStr "![image.png](../_static/dataset.png)"])];
      JObj [
        ("cell_type", JStr "code");
        ("execution_count", JNull);
        ("metadata", JObj []);
        ("outputs", JArr []);
        ("source", JArr [
          JStr (ln "import matplotlib.pyplot as plt");
          JStr (ln "import numpy as np");
          JStr "import xarray as xr"])];
      JObj [
        ("cell_type", JStr "markdown");
        ("metadata", JObj []);
        ("source", JArr [
          JStr (ln "Xarray has a few small real-world tutorial datasets hosted in the [xarray-data](https://github.com/pydata/xarray-data) GitHub repository.");
          JStr nl;
          JStr (ln "[xarray.tutorial.load_dataset](https://docs.xarray.dev/en/stable/generated/xarray.tutorial.open_dataset.html#xarray.tutorial.open_dataset) is a convenience function to download and open DataSets by name (listed at that link).");
          JStr nl;
          JStr "Here we'll use `air temperature` from the [National Center for Environmental Prediction](https://www.weather.gov/ncep/). Xarray objects have convenient HTML representations to give an overview of what we're working with:"])];
      JObj [
        ("cell_type", JStr "code");
        ("execution_count", JNull);
        ("metadata", JObj []);
        ("outputs", JArr []);
        ("source", JArr [
          JStr (ln ("ds = xr.tutorial.load_dataset(" +:+ dq +:+ "air_temperature" +:+ dq +:+ ")"));
          JStr "ds"])];
      JObj [
        ("cell_type", JStr "markdown");
        ("metadata", JObj []);
        ("source", JArr [
          JStr (ln "Note that behind the scenes the `tutorial.open_dataset` downloads a file. It then uses [`xarray.open_dataset`](https://docs.xarray.dev/en/stable/generated/xarray.open_dataset.html#xarray-open-dataset) function to open that file (which for this datasets is a [netCDF](https://www.unidata.ucar.edu/software/netcdf/) file). ");
          JStr nl;
          JStr nl;
          JStr "As a preview of the power of Xarray, using this data structure allows us to make very readable and powerful statements such as:"])];
      JObj [
        ("cell_type", JStr "code");
        ("execution_count", JNull);
        ("metadata", JObj []);
        ("outputs", JArr []);
        ("source", JArr [
          JStr ("ds.air.mean(dim=" +:+ dq +:+ "time" +:+ dq +:+ ").plot(x=" +:+ dq +:+ "lon" +:+ dq +:+ ")")])];
      JObj [
        ("cell_type", JStr "markdown");
        ("metadata", JObj []);
        ("source", JArr [
          JStr (ln "## What's in a Dataset? ");
          JStr nl;
          JStr (ln "*Many DataArrays!* ");
          JStr nl;
          JStr (ln ("Datasets are dictionary-like containers of " +:+ dq +:+ "DataArray" +:+ dq +:+ "s. They are a mapping of"));
          JStr "variable name to DataArray:"])];
      JObj [
        ("cell_type", JStr "code");
        ("execution_count", JNull);
        ("metadata", JObj []);
        ("outputs", JArr []);
        ("source", JArr [
          JStr (ln ("# pull out " +:+ dq +:+ "air" +:+ dq +:+ " dataarray with dictionary syntax"));
          JStr ("ds[" +:+ dq +:+ "air" +:+ dq +:+ "]")])];
      JObj [
        ("cell_type", JStr "markdown");
        ("metadata", JObj []);
        ("source", JArr [
          JStr (ln ("You can save some typing by using the " +:+ dq +:+ "attribute" +:+ dq +:+ " or " +:+ dq +:+ "dot" +:+ dq +:+ " notation. This won't"));
          JStr (ln "work for variable names that clash with a built-in method name (like `mean` for");
          JStr (ln "example).")])];
      JObj [
        ("cell_type", JStr "code");
        ("execution_count", JNull);
        ("metadata", JObj []);
        ("outputs", JArr []);
        ("source", JArr [
          JStr (ln "# pull out dataarray using dot notation");
          JStr "ds.air"])];
      JObj [
        ("cell_type", JStr "markdown");
        ("metadata", JObj []);
        ("source", JArr [
          JStr (ln "## What's in a DataArray? ");
          JStr nl;
          JStr "*data + (a lot of) metadata*"])];
      JObj [
        ("cell_type", JStr "markdown");
        ("metadata", JObj []);
        ("source", JArr [
          JStr "### Name (optional)"])];
      JObj [
        ("cell_type", JStr "code");
        ("execution_count", JNull);
        ("metadata", JObj []);
        ("outputs", JArr []);
        ("source", JArr [
          JStr (ln "da = ds.air");
          JStr nl;
          JStr "da.name"])];
      JObj [
        ("cell_type", JStr "markdown");
        ("metadata", JObj []);
        ("source", JArr [
          JStr (ln "### Named dimensions ");
          JStr nl;
          JStr (ln "`.dims` correspond to the axes of your data. ");
          JStr nl;
          JStr "In this case we have 2 spatial dimensions (`latitude` and `longitude` are stored with shorthand names `lat` and `lon`) and one temporal dimension (`time`)."])];
      JObj [
        ("cell_type", JStr "code");
        ("execution_count", JNull);
        ("metadata", JObj []);
        ("outputs", JArr []);
        ("source", JArr [
          JStr "da.dims"])];
      JObj [
        ("cell_type", JStr "markdown");
        ("metadata", JObj []);
        ("source", JArr [
          JStr (ln "### Coordinate variables ");
          JStr nl;
          JStr (ln "`.coords` is a simple [data container](https://docs.xarray.dev/en/stable/user-guide/data-structures.html#coordinates)");
          JStr (ln "for coordinate variables.");
          JStr nl;
          JStr "Here we see the actual timestamps and spatial positions of our air temperature data:"])];
      JObj [
        ("cell_type", JStr "code");
        ("execution_count", JNull);
        ("metadata", JObj []);
        ("outputs", JArr []);
        ("source", JArr [
          JStr "da.coords"])];
      JObj [
        ("cell_type", JStr "markdown");
        ("metadata", JObj []);
        ("source", JArr [
          JStr (ln "Coordinates objects support similar indexing notation")])];
      JObj [
        ("cell_type", JStr "code");
        ("execution_count", JNull);
        ("metadata", JObj []);
        ("outputs", JArr []);
        ("source", JArr [
          JStr (ln "# extracting coordinate variables");
          JStr "da.lon"])];
      JObj [
        ("cell_type", JStr "code");
        ("execution_count", JNull);
        ("metadata", JObj []);
        ("outputs", JArr []);
        ("source", JArr [
          JStr (ln "# extracting coordinate variables from .coords");
          JStr ("da.coords[" +:+ dq +:+ "lon" +:+ dq +:+ "]")])];
      JObj [
        ("cell_type", JStr "markdown");
        ("metadata", JObj []);
        ("source", JArr [
          JStr (ln "It is useful to think of the values in these coordinate variables as axis");
          JStr (ln (dq +:+ "labels" +:+ dq +:+ " such as " +:+ dq +:+ "tick labels" +:+ dq +:+ " in a figure. These are coordinate locations on a"));
          JStr (ln "grid at which you have data.")])];
      JObj [
        ("cell_type", JStr "markdown");
        ("metadata", JObj []);
        ("source", JArr [
          JStr (ln "### Arbitrary attributes ");
          JStr nl;
          JStr (ln "`.attrs` is a dictionary that can contain arbitrary Python objects (strings, lists, integers, dictionaries, etc.) Your only");
          JStr "limitation is that some attributes may not be writeable to certain file formats."])];
      JObj [
        ("cell_type", JStr "code");
        ("execution_count", JNull);
        ("metadata", JObj []);
        ("outputs", JArr []);
        ("source", JArr [
          JStr "da.attrs"])];
      JObj [
        ("cell_type", JStr "code");
        ("execution_count", JNull);
        ("metadata", JObj []);
        ("outputs", JArr []);
        ("source", JArr [
          JStr (ln "# assign your own attributes!");
          JStr (ln ("da.attrs[" +:+ dq +:+ "who_is_awesome" +:+ dq +:+ "] = " +:+ dq +:+ "xarray" +:+ dq));
          JStr "da.attrs"])];
      JObj [
        ("cell_type", JStr "code");
        ("execution_count", JNull);
        ("metadata", JObj []);
        ("outputs", JArr []);
        ("source", JArr [
          JStr "da"])];
      JObj [
        ("cell_type", JStr "markdown");
        ("metadata", JObj []);
        ("source", JArr [
          JStr (ln "### Underlying data ");
          JStr nl;
          JStr (ln "`.data` contains the [numpy array](https://numpy.org) storing air temperature values.");
          JStr nl;
          JStr (ln ("<img src=" +:+ dq +:+ "https://raw.githubusercontent.com/numpy/numpy/623bc1fae1d47df24e7f1e29321d0c0ba2771ce0/branding/logo/primary/numpylogo.svg" +:+ dq +:+ " width=" +:+ dq +:+ "25%" +:+ dq +:+ ">"));
          JStr nl;
          JStr "Xarray structures wrap underlying simpler array-like data structures. This part of Xarray is quite extensible allowing for distributed array, GPU arrays, sparse arrays, arrays with units etc. We'll  briefly look at this later in this tutorial."])];
      JObj [
        ("cell_type", JStr "code");
        ("execution_count", JNull);
        ("metadata", JObj []);
        ("outputs", JArr []);
        ("source", JArr [
          JStr "da.data"])];
      JObj [
        ("cell_type", JStr "code");
        ("execution_count", JNull);
        ("metadata", JObj []);
        ("outputs", JArr []);
        ("source", JArr [
          JStr (ln "# what is the type of the underlying data");
          JStr "type(da.data)"])];
      JObj [
        ("attachments", JObj []);
        ("cell_type", JStr "markdown");
        ("metadata", JObj []);
        ("source", JArr [
          JStr (ln "### Review");
          JStr nl;
          JStr (ln "Two of Xarray's main data structures are:");
          JStr nl;
          JStr (ln "1. [`DataArrays`](https://docs.xarray.dev/en/stable/user-guide/data-structures.html#dataarray) that wrap underlying data containers (e.g. numpy arrays) and contain associated metadata");
          JStr (ln "1. [`Datasets`](https://docs.xarray.dev/en/stable/user-guide/data-structures.html#dataset) that are dictionary-like containers of DataArrays");
          JStr nl;
          JStr (ln "DataArrays contain underlying arrays and associated metadata:");
          JStr (ln "1. Name");
          JStr (ln "2. Dimension names");
          JStr (ln "3. Coordinate variables");
          JStr (ln "4. and arbitrary attributes.");
          JStr nl;
          JStr (ln "![image.png](../_static/variable.png)");
          JStr nl;
          JStr (ln "![image.png](../_static/dataarray.png)");
          JStr nl;
          JStr (ln "![image.png](../_static/dataset.png)");
          JStr nl;
          JStr nl;
          JStr ("<img src=" +:+ dq +:+ "https://docs.xarray.dev/en/stable/_images/dataset-diagram.png" +:+ dq +:+ " align=" +:+ dq +:+ "center" +:+ dq +:+ " width=" +:+ dq +:+ "50%" +:+ dq +:+ ">")])];
      JObj [
        ("cell_type", JStr "markdown");
        ("metadata", JObj []);
        ("source", JArr [
          JStr (ln "## Exercise");
          JStr nl;
          JStr (ln "In this exercise the air dataset has been deconstructed into a dictionary of NumPy arrays. Please");
          JStr nl;
          JStr (ln "- Build a Dataset from scratch from this dictionary of NumPy arrays.");
          JStr nl;
          JStr nl;
          JStr (ln "Hint: You will want to start by building DataArrays, then combining them into a Dataset.")])];
      JObj [
        ("cell_type", JStr "code");
        ("execution_count", JNull);
        ("metadata", JObj []);
        ("outputs", JArr []);
        ("source", JArr [
          JStr (ln "def air_as_dictionary():");
          JStr (ln ("    ds = xr.tutorial.open_dataset(" +:+ dq +:+ "air_temperature" +:+ dq +:+ ")"));
          JStr (ln "    return {");
          JStr (ln "        'lat': ds['lat'].values,");
          JStr (ln "        'lon': ds['lon'].values,");
          JStr (ln "        'attrs': ds.attrs,");
          JStr (ln "        'time': ds['time'].values,");
          JStr (ln "        'air-temp': ds['air'].values,");
          JStr (ln "    }");
          JStr nl;
          JStr nl;
          JStr (ln "data = air_as_dictionary()");
          JStr nl;
          JStr nl;
          JStr "# Your code here"])];
      JObj [
        ("cell_type", JStr "markdown");
        ("metadata", JObj []);
        ("source", JArr [
          JStr (ln "## Why Xarray? ");
          JStr nl;
          JStr (ln "Metadata provides context and provides code that is more legible. This reduces the likelihood of errors from typos and makes analysis more intuitive and fun!");
          JStr nl;
          JStr "### Analysis without xarray: `X(`"])];
      JObj [
        ("cell_type", JStr "code");
        ("execution_count", JNull);
        ("metadata", JObj []);
        ("outputs", JArr []);
        ("source", JArr [
          JStr (ln "# plot the first timestep");
          JStr (ln "lat = ds.air.lat.data  # numpy array");
          JStr (ln "lon = ds.air.lon.data  # numpy array");
          JStr "temp = ds.air.data  # numpy array"])];
      JObj [
        ("cell_type", JStr "code");
        ("execution_count", JNull);
        ("metadata", JObj []);
        ("outputs", JArr []);
        ("source", JArr [
          JStr (ln "plt.figure()");
          JStr "plt.pcolormesh(lon, lat, temp[0, :, :]);"])];
      JObj [
        ("cell_type", JStr "code");
        ("execution_count", JNull);
        ("metadata", JObj []);
        ("outputs", JArr []);
        ("source", JArr [
          JStr "temp.mean(axis=1)  ## what did I just do? I can't tell by looking at this line."])];
      JObj [
        ("cell_type", JStr "markdown");
        ("metadata", JObj []);
        ("source", JArr [
          JStr (ln "### Analysis with xarray `=)`");
          JStr nl;
          JStr (ln "How readable is this code?")])];
      JObj [
        ("cell_type", JStr "code");
        ("execution_count", JNull);
        ("metadata", JObj []);
        ("outputs", JArr []);
        ("source", JArr [
          JStr ("ds.air.isel(time=0).plot(x=" +:+ dq +:+ "lon" +:+ dq +:+ ");")])];
      JObj [
        ("cell_type", JStr "markdown");
        ("metadata", JObj []);
        ("source", JArr [
          JStr (ln "Use dimension names instead of axis numbers")])];
      JObj [
        ("cell_type", JStr "code");
        ("execution_count", JNull);
        ("metadata", JObj []);
        ("outputs", JArr []);
        ("source", JArr [
          JStr ("ds.air.mean(dim=" +:+ dq +:+ "time" +:+ dq +:+ ").plot(x=" +:+ dq +:+ "lon" +:+ dq +:+ ")")])];
      JObj [
        ("cell_type", JStr "markdown");
        ("metadata", JObj []);
        ("source", JArr [
          JStr (ln "---");
          JStr nl;
          JStr (ln ("## Extracting data or " +:+ dq +:+ "indexing" +:+ dq +:+ " "));
          JStr nl;
          JStr (ln "Xarray supports");
          JStr nl;
          JStr (ln "- label-based indexing using `.sel`");
          JStr (ln "- position-based indexing using `.isel`");
          JStr nl;
          JStr "See the [user guide](https://docs.xarray.dev/en/stable/indexing.html) for more."])];
      JObj [
        ("cell_type", JStr "markdown");
        ("metadata", JObj []);
        ("source", JArr [
          JStr (ln "### Label-based indexing");
          JStr nl;
          JStr (ln "Xarray inherits its label-based indexing rules from pandas; this means great");
          JStr (ln "support for dates and times!")])];
      JObj [
        ("cell_type", JStr "code");
        ("execution_count", JNull);
        ("metadata", JObj []);
        ("outputs", JArr []);
        ("source", JArr [
          JStr (ln "# here's what ds looks like");
          JStr "ds"])];
      JObj [
        ("cell_type", JStr "code");
        ("execution_count", JNull);
        ("metadata", JObj []);
        ("outputs", JArr []);
        ("source", JArr [
          JStr (ln "# pull out data for all of 2013-May");
          JStr ("ds.sel(time=" +:+ dq +:+ "2013-05" +:+ dq +:+ ")")])];
      JObj [
        ("cell_type", JStr "code");
        ("execution_count", JNull);
        ("metadata", JObj []);
        ("outputs", JArr []);
        ("source", JArr [
          JStr (ln "# demonstrate slicing");
          JStr ("ds.sel(time=slice(" +:+ dq +:+ "2013-05" +:+ dq +:+ ", " +:+ dq +:+ "2013-07" +:+ dq +:+ "))")])];
      JObj [
        ("cell_type", JStr "code");
        ("execution_count", JNull);
        ("metadata", JObj []);
        ("outputs", JArr []);
        ("source", JArr [
          JStr ("ds.sel(time=" +:+ dq +:+ "2013" +:+ dq +:+ ")")])];
      JObj [
        ("cell_type", JStr "code");
        ("execution_count", JNull);
        ("metadata", JObj []);
        ("outputs", JArr []);
        ("source", JArr [
          JStr (ln ("# demonstrate " +:+ dq +:+ "nearest" +:+ dq +:+ " indexing"));
          JStr ("ds.sel(lon=240.2, method=" +:+ dq +:+ "nearest" +:+ dq +:+ ")")])];
      JObj [
        ("cell_type", JStr "code");
        ("execution_count", JNull);
        ("metadata", JObj []);
        ("outputs", JArr []);
        ("source", JArr [
          JStr (ln ("# " +:+ dq +:+ "nearest indexing at multiple points" +:+ dq));
          JStr ("ds.sel(lon=[240.125, 234], lat=[40.3, 50.3], method=" +:+ dq +:+ "nearest" +:+ dq +:+ ")")])];
      JObj [
        ("cell_type", JStr "markdown");
        ("metadata", JObj []);
        ("source", JArr [
          JStr (ln "### Position-based indexing");
          JStr nl;
          JStr (ln "This is similar to your usual numpy `array[0, 2, 3]` but with the power of named");
          JStr (ln "dimensions!")])];
      JObj [
        ("cell_type", JStr "code");
        ("execution_count", JNull);
        ("metadata", JObj []);
        ("outputs", JArr []);
        ("source", JArr [
          JStr "ds.air.data[0, 2, 3]"])];
      JObj [
        ("cell_type", JStr "code");
        ("execution_count", JNull);
        ("metadata", JObj []);
        ("outputs", JArr []);
        ("source", JArr [
          JStr (ln "# pull out time index 0, lat index 2, and lon index 3");
          JStr "ds.air.isel(time=0, lat=2, lon=3)  #  much better than ds.air[0, 2, 3]"])];
      JObj [
        ("cell_type", JStr "code");
        ("execution_count", JNull);
        ("metadata", JObj []);
        ("outputs", JArr []);
        ("source", JArr [
          JStr (ln "# demonstrate slicing");
          JStr "ds.air.isel(lat=slice(10))"])];
      JObj [
        ("cell_type", JStr "markdown");
        ("metadata", JObj []);
        ("source", JArr [
          JStr (ln "## Other field DataStructures");
          JStr nl;
          JStr nl;
          JStr "Link to next notebook: [Data structures In Biology](../../intermediate/BiologyDataset.ipynb)"])];
      JObj [
        ("cell_type", JStr "markdown");
        ("metadata", JObj []);
        ("source", JArr [
          JStr (ln "## Exercise");
          JStr nl;
          JStr (ln "Dataset of non-alignable data.");
          JStr nl;
          JStr (ln ("For this exercise we will be using the `" +:+ dq +:+ "precipitation" +:+ dq +:+ "` example data. This data has two parts observed rainfall (`observed`), and predicted rainfall, on a different lat-lon grid. The next cell calls a function that will give you two different Datasets. Try to combine them using the tools we've discussed thus far and observe what goes wrong."))])];
      JObj [
        ("cell_type", JStr "code");
        ("execution_count", JNull);
        ("metadata", JObj []);
        ("outputs", JArr []);
        ("source", JArr [
          JStr (ln "tree = xr.tutorial.open_datatree('precipitation.nc4')");
          JStr (ln "reanalysis = xr.Dataset(tree['observed'])");
          JStr "observed = xr.Dataset(tree['reanalysis'])"])];
      JObj [
        ("cell_type", JStr "code");
        ("execution_count", JNull);
        ("metadata", JObj []);
        ("outputs", JArr []);
        ("source", JArr [])];
      JObj [
        ("cell_type", JStr "markdown");
        ("metadata", JObj []);
        ("source", JArr [
          JStr "For more see the [user guide](https://docs.xarray.dev/en/stable/plotting.html), the [gallery](https://docs.xarray.dev/en/stable/examples/visualization_gallery.html), and [the tutorial material](https://tutorial.xarray.dev/fundamentals/04.0_plotting.html)."])];
      JObj [
        ("cell_type", JStr "code");
        ("execution_count", JNull);
        ("metadata", JObj []);
        ("outputs", JArr []);
        ("source", JArr [])];
      JObj [
        ("cell_type", JStr "code");
        ("execution_count", JNull);
        ("metadata", JObj []);
        ("outputs", JArr []);
        ("source", JArr [])]]);
    ("metadata", JObj [
      ("language_info", JObj [
        ("codemirror_mode", JObj [
          ("name", JStr "ipython");
          ("version", JNum 3%Z)]);
        ("file_extension", JStr ".py");
        ("mimetype", JStr "text/x-python");
        ("name", JStr "python");
        ("nbconvert_exporter", JStr "python");
        ("pygments_lexer", JStr "ipython3")]);
      ("toc", JObj [
        ("base_numbering", JNum 1%Z);
        ("nav_menu", JObj []);
        ("number_sections", JBool true);
        ("sideBar", JBool true);
        ("skip_h1_title", JBool false);
        ("title_cell", JStr "Table of Contents");
        ("title_sidebar", JStr "Contents");
        ("toc_cell", JBool true);
        ("toc_position", JObj []);
        ("toc_section_display", JBool true);
        ("toc_window_display", JBool true)])]);
    ("nbformat", JNum 4%Z);
    ("nbformat_minor", JNum 4%Z)].

(** workshops/scipy2025/index.ipynb *)
Definition scipy2025_index : json :=
  JObj [
    ("cells", JArr [
      JObj [
        ("cell_type", JStr "markdown");
        ("id", JStr "0");
        ("metadata", JObj []);
        ("source", JArr [
          JStr (ln "# SciPy 2025");
          JStr nl;
          JStr (ln "## Welcome to the Xarray SciPy 2025 Tutorial! ");
          JStr nl;
          JStr (ln ("<img src=" +:+ dq +:+ "https://images.squarespace-cdn.com/content/v1/6743676bb9f2e109f0ddba96/055e9b3f-965f-42c7-b496-2ba3870e216e/Logo_color-black.png?format=1500w" +:+ dq +:+ " align=" +:+ dq +:+ "right" +:+ dq +:+ " width=" +:+ dq +:+ "20%" +:+ dq +:+ ">"));
          JStr nl;
          JStr (ln "**Hierarchical Data Analysis with Xarray DataTree & Zarr**");
          JStr nl;
          JStr (ln "July 8, 13:30–17:30 (US/Pacific), Tacoma Convention Center Room 315");
          JStr nl;
          JStr (ln "This *4-hour* workshop will explore content from [the Xarray tutorial](https://tutorial.xarray.dev), which contains a comprehensive collection of hands-on tutorial Jupyter Notebooks. We will review a curated set of examples that will prepare you for increasingly complex real-world data analysis tasks!");
          JStr nl;
          JStr (ln ":::{admonition} Learning Goals");
          JStr (ln "- Understand Xarray’s core data structures");
          JStr (ln "- Understand how to map typical Xarray computations and workflows over hierarchical data");
          JStr (ln "- Understand how common storage formats correspond to the DataTree model");
          JStr (ln "- Open a public Zarr store in the cloud and manipulate the contents");
          JStr ":::"])];
      JObj [
        ("cell_type", JStr "markdown");
        ("id", JStr "1");
        ("metadata", JObj []);
        ("source", JArr [
          JStr (ln "## Schedule ");
          JStr nl;
          JStr (ln "*Times in US/Pacific Timezone (Tacoma, WA)");
          JStr nl;
          JStr (ln "Use the links to navigate to the right notebooks.");
          JStr nl;
          JStr (ln "| Topic | Time | Notebook Links | ");
          JStr (ln "| :- | - | - | ");
          JStr (ln "| Introduction and Setup | 1:30 (10 min) | | ");
          JStr (ln "| The Xarray Data Model | 1:40 (50 min) | [Data structures](../../fundamentals/01_data_structures.md) | ");
          JStr (ln "| *10 minute Break*  ");
          JStr (ln "| Computational Patterns | 2:30 (50 min) |  [Computational Patterns](../../intermediate/computation/01-high-level-computation-patterns.ipynb) <br> [Hierarchical computation](../../intermediate/computation/hierarchical_computation.ipynb) |  ");
          JStr (ln "| *10 minute Break*  | ");
          JStr (ln "| Zarr & the cloud | 4:30 (50 min)  | [Intro to Zarr](../../intermediate/intro-to-zarr.ipynb) <br> [CMIP6 on the cloud](../../intermediate/remote_data/cmip6-cloud.ipynb) <br> |");
          JStr (ln "| *10 minute Break*  | ");
          JStr (ln "| Other storage formats | 3:30 (50 min) | [IO basics](../../fundamentals/01.1_io.ipynb) <br> [Data models](../../intermediate/storage_formats.ipynb) <br> [Custom backends](../../advanced/backends/backends.md) <br> |  ");
          JStr "| | End 5:30 | |"])];
      JObj [
        ("cell_type", JStr "markdown");
        ("id", JStr "2");
        ("metadata", JObj []);
        ("source", JArr [
          JStr (ln "### Tutorial Setup");
          JStr nl;
          JStr "Refer to the [Getting Started Section](../../overview/get-started.md) for various options to run tutorial notebooks either on your personal computer or on a free Cloud-hosted server."])]]);
    ("metadata", JObj [
      ("language_info", JObj [
        ("codemirror_mode", JObj [
          ("name", JStr "ipython");
          ("version", JNum 3%Z)]);
        ("file_extension", JStr ".py");
        ("mimetype", JStr "text/x-python");
        ("name", JStr "python");
        ("nbconvert_exporter", JStr "python");
        ("pygments_lexer", JStr "ipython3")])]);
    ("nbformat", JNum 4%Z);
    ("nbformat_minor", JNum 5%Z)].

Definition notebooks : list json :=
  [basic_computation; data_structures; scipy2025_index].

Definition cells (nb : json) : list json :=
  match field "cells" nb with
  | Some (JArr cs) => cs
  | _ => []
  end.

Definition cell_type (c : json) : option string :=
  match field "cell_type" c with Some j => str j | None => None end.

(** The text of a multi-line string: one string, or the concatenation of a
    list of strings. *)
Definition multiline (j : json) : option string :=
  match j with
  | JStr s => Some s
  | JArr xs =>
      if forallb is_str xs then Some (concat_all (omap str xs)) else None
  | _ => None
  end.

Definition source (c : json) : option string :=
  match field "source" c with Some j => multiline j | None => None end.

Definition is_code (c : json) : bool :=
  bool_decide (cell_type c = Some "code").

Definition is_markdown (c : json) : bool :=
  bool_decide (cell_type c = Some "markdown").

(** The sources of the code cells, in document order. *)
Definition code_sources (nb : json) : list string :=
  omap source (List.filter is_code (cells nb)).

(** *** Validity against the version-4 schema *)

Definition has_all (required : list string) (j : json) : bool :=
  forallb (fun k => bool_decide (k ∈ fields j)) required.

Definition has_only (allowed : list string) (j : json) : bool :=
  forallb (fun k => bool_decide (k ∈ allowed)) (fields j).

Definition field_is (p : json -> bool) (k : string) (j : json) : bool :=
  match field k j with Some v => p v | None => true end.

Definition is_multiline (j : json) : bool :=
  match multiline j with Some _ => true | None => false end.

Definition is_int_or_null (j : json) : bool :=
  match j with JNum _ | JNull => true | _ => false end.

(** Cell ids exist from minor version 5 on, where they are required. *)
Definition id_keys (minor : Z) : list string :=
  if (5 <=? minor)%Z then ["id"] else [].

Definition valid_cell (minor : Z) (c : json) : bool :=
  is_obj c &&
  field_is is_obj "metadata" c &&
  field_is is_multiline "source" c &&
  field_is is_str "id" c &&
  match cell_type c with
  | Some t =>
      if String.eqb t "markdown" || String.eqb t "raw" then
        has_all (id_keys minor ++ ["cell_type"; "metadata"; "source"]) c &&
        has_only (id_keys minor ++
                  ["cell_type"; "metadata"; "source"; "attachments"]) c &&
        field_is is_obj "attachments" c
      else if String.eqb t "code" then
        has_all (id_keys minor ++
                 ["cell_type"; "metadata"; "source"; "outputs";
                  "execution_count"]) c &&
        has_only (id_keys minor ++
                  ["cell_type"; "metadata"; "source"; "outputs";
                   "execution_count"]) c &&
        field_is is_arr "outputs" c &&
        field_is is_int_or_null "execution_count" c
      else false
  | None => false
  end.

Definition cell_id (c : json) : option string :=
  match field "id" c with Some j => str j | None => None end.

Definition cell_ids (nb : json) : list string :=
  omap cell_id (cells nb).

Definition nbformat (nb : json) : option Z :=
  match field "nbformat" nb with Some j => num j | None => None end.

Definition nbformat_minor (nb : json) : option Z :=
  match field "nbformat_minor" nb with Some j => num j | None => None end.

Definition valid_notebook (nb : json) : bool :=
  has_all ["metadata"; "nbformat_minor"; "nbformat"; "cells"] nb &&
  has_only ["metadata"; "nbformat_minor"; "nbformat"; "cells"] nb &&
  field_is is_obj "metadata" nb &&
  field_is is_arr "cells" nb &&
  bool_decide (nbformat nb = Some 4%Z) &&
  match nbformat_minor nb with
  | Some minor =>
      (0 <=? minor)%Z && forallb (valid_cell minor) (cells nb) &&
      bool_decide (NoDup (cell_ids nb))
  | None => false
  end.

(** *** Stored form of the cells *)

Definition source_lines (c : json) : list string :=
  match field "source" c with
  | Some (JArr xs) => omap str xs
  | _ => []
  end.

Definition stripped (c : json) : bool :=
  match field "outputs" c, field "execution_count" c with
  | Some (JArr []), Some JNull => true
  | _, _ => false
  end.

End Notebook.

(** ** The Python of the code cells *)

Module Python.
Import Text.

(** *** Syntax

    The tree keeps what is needed to print a cell back character by
    character: quote styles, comments, blank lines, the trailing [;] that
    silences a cell's output, IPython magics. *)

Inductive quote := Single | Double.

Inductive binop := Add | Sub | Mul | Div | Pow.

Inductive layout := Inline | Block.

Inductive expr :=
| Name (x : string)
| Num (lit : string)
| Str (q : quote) (s : string)
| Const (c : string)
| Attr (e : expr) (a : string)
| Call (f : expr) (args : list (option string * expr))
| Index (e : expr) (ix : list expr)
| Colon
| BinOp (o : binop) (l r : expr)
| Neg (e : expr)
| ListLit (es : list expr)
| DictLit (l : layout) (kvs : list (expr * expr)).

Inductive stmt :=
| Blank
| Comment (text : string)
| Magic (text : string)
| Import (module alias : string)
| Assign (target e : expr)
| Expr (e : expr)
| Return (e : expr)
| Def (name : string) (params : list string) (body : list stmt)
| Semi (s : stmt)
| Trailing (s : stmt) (comment : string).

Definition cell := list stmt.

Definition pos (e : expr) : option string * expr := (None, e).
Definition kw (k : string) (e : expr) : option string * expr := (Some k, e).

(** *** Printing *)

Fixpoint sep_by (sep : string) (l : list string) : string :=
  match l with
  | [] => EmptyString
  | [x] => x
  | x :: l' => x +:+ sep +:+ sep_by sep l'
  end.

Fixpoint spaces (n : nat) : string :=
  match n with
  | O => EmptyString
  | S n' => String " " (spaces n')
  end.

Definition quote_mark (q : quote) : string :=
  match q with Single => "'" | Double => dq end.

Definition show_binop (o : binop) : string :=
  match o with
  | Add => " + " | Sub => " - " | Mul => " * " | Div => " / " | Pow => "**"
  end.

Definition prec (o : binop) : nat :=
  match o with Add | Sub => 1 | Mul | Div => 2 | Pow => 4 end.

Definition prec_of (e : expr) : nat :=
  match e with
  | BinOp o _ _ => prec o
  | Neg _ => 3
  | _ => 5
  end.

Definition paren_if (b : bool) (s : string) : string :=
  if b then "(" +:+ s +:+ ")" else s.

Definition is_pow (o : binop) : bool :=
  match o with Pow => true | _ => false end.

Fixpoint show (ind : nat) (e : expr) : string :=
  match e with
  | Name x => x
  | Num lit => lit
  | Str q s => quote_mark q +:+ s +:+ quote_mark q
  | Const c => c
  | Attr e a => paren_if (Nat.ltb (prec_of e) 5) (show ind e) +:+ "." +:+ a
  | Call f args =>
      paren_if (Nat.ltb (prec_of f) 5) (show ind f) +:+ "(" +:+
      sep_by ", "
        (map (fun a =>
                match a with
                | (Some k, v) => k +:+ "=" +:+ show ind v
                | (None, v) => show ind v
                end) args) +:+ ")"
  | Index e ix =>
      paren_if (Nat.ltb (prec_of e) 5) (show ind e) +:+ "[" +:+
      sep_by ", " (map (show ind) ix) +:+ "]"
  | Colon => ":"
  | BinOp o l r =>
      paren_if ((Nat.ltb (prec_of l) (prec o)) || (is_pow o && (Nat.leb (prec_of l) (prec o))))
        (show ind l) +:+
      show_binop o +:+
      paren_if ((Nat.ltb (prec_of r) (prec o)) || (negb (is_pow o) && (Nat.leb (prec_of r) (prec o))))
        (show ind r)
  | Neg e => "-" +:+ paren_if (Nat.ltb (prec_of e) 3) (show ind e)
  | ListLit es => "[" +:+ sep_by ", " (map (show ind) es) +:+ "]"
  | DictLit Inline kvs =>
      "{" +:+
      sep_by ", "
        (map (fun kv =>
                match kv with
                | (k, v) => show ind k +:+ ": " +:+ show ind v
                end) kvs) +:+ "}"
  | DictLit Block kvs =>
      "{" +:+ nl +:+
      concat_all
        (map (fun kv =>
                match kv with
                | (k, v) =>
                    spaces (ind + 4) +:+ show (ind + 4) k +:+ ": " +:+
                    show (ind + 4) v +:+ "," +:+ nl
                end) kvs) +:+
      spaces ind +:+ "}"
  end.

Fixpoint show_stmt (ind : nat) (s : stmt) : string :=
  match s with
  | Blank => EmptyString
  | Comment text => spaces ind +:+ text
  | Magic text => spaces ind +:+ text
  | Import m a => spaces ind +:+ "import " +:+ m +:+ " as " +:+ a
  | Assign t e => spaces ind +:+ show ind t +:+ " = " +:+ show ind e
  | Expr e => spaces ind +:+ show ind e
  | Return e => spaces ind +:+ "return " +:+ show ind e
  | Def f ps body =>
      spaces ind +:+ "def " +:+ f +:+ "(" +:+ sep_by ", " ps +:+ "):" +:+
      concat_all (map (fun b => nl +:+ show_stmt (ind + 4) b) body)
  | Semi s => show_stmt ind s +:+ ";"
  | Trailing s c => show_stmt ind s +:+ "  " +:+ c
  end.

Definition show_cell (c : cell) : string :=
  sep_by nl (map (show_stmt 0) c).

(** *** The code cells of the notebooks *)

Definition xr_tutorial (loader : string) (name : expr) : expr :=
  Call (Attr (Attr (Name "xr") "tutorial") loader) [pos name].

Definition method (e : expr) (m : string) (args : list (option string * expr)) : expr :=
  Call (Attr e m) args.

Definition ds_sst : expr := Attr (Name "ds") "sst".
Definition ds_air : expr := Attr (Name "ds") "air".

Definition basic_computation_code : list cell := [
  [ Import "numpy" "np";
    Import "xarray" "xr";
    Import "matplotlib.pyplot" "plt";
    Blank;
    Comment "# Ask Xarray to not show data values by default";
    Expr (Call (Attr (Name "xr") "set_options")
            [kw "display_expand_data" (Const "False")]);
    Blank;
    Magic "%config InlineBackend.figure_format='retina'" ];
  [ Assign (Name "ds") (xr_tutorial "load_dataset" (Str Double "ersstv5"));
    Expr (Name "ds") ];
  [ Semi (Expr (method (method ds_sst "isel" [kw "time" (Num "0")]) "plot"
                  [kw "vmin" (Neg (Num "2")); kw "vmax" (Num "30")])) ];
  [ Assign (Name "sst_kelvin") (BinOp Add ds_sst (Num "273.15"));
    Expr (Name "sst_kelvin") ];
  [ Assign (Name "f")
      (BinOp Mul (Num "0.5")
         (Call (Attr (Name "np") "log")
            [pos (BinOp Pow (Name "sst_kelvin") (Num "2"))]));
    Expr (Name "f") ];
  [ Expr (Call (Attr (Name "np") "nan_to_num") [pos ds_sst; kw "nan" (Num "0")]) ];
  [ Expr (Call (Attr (Name "xr") "apply_ufunc")
            [pos (Attr (Name "np") "nan_to_num"); pos ds_sst;
             kw "kwargs" (DictLit Inline [(Str Double "nan", Num "0")])]) ];
  [ Assign (Name "sst") ds_sst;
    Expr (method (Name "sst") "mean" [kw "axis" (Num "0")]) ];
  [ Expr (method (Name "sst") "mean" [kw "dim" (Str Double "time")]) ];
  [ Expr (method (Name "sst") "mean"
            [pos (ListLit [Str Double "lat"; Str Double "time"])]) ];
  [ Expr (method (Name "sst") "mean" []) ] ].

Definition air_as_dictionary : stmt :=
  Def "air_as_dictionary" [] [
    Assign (Name "ds") (xr_tutorial "open_dataset" (Str Double "air_temperature"));
    Return (DictLit Block [
      (Str Single "lat", Attr (Index (Name "ds") [Str Single "lat"]) "values");
      (Str Single "lon", Attr (Index (Name "ds") [Str Single "lon"]) "values");
      (Str Single "attrs", Attr (Name "ds") "attrs");
      (Str Single "time", Attr (Index (Name "ds") [Str Single "time"]) "values");
      (Str Single "air-temp", Attr (Index (Name "ds") [Str Single "air"]) "values")]) ].

Definition plot_mean_over_time : stmt :=
  Expr (method (method ds_air "mean" [kw "dim" (Str Double "time")]) "plot"
          [kw "x" (Str Double "lon")]).

Definition precipitation_exercise : cell :=
  [ Assign (Name "tree") (xr_tutorial "open_datatree" (Str Single "precipitation.nc4"));
    Assign (Name "reanalysis")
      (Call (Attr (Name "xr") "Dataset") [pos (Index (Name "tree") [Str Single "observed"])]);
    Assign (Name "observed")
      (Call (Attr (Name "xr") "Dataset") [pos (Index (Name "tree") [Str Single "reanalysis"])]) ].

Definition data_structures_code : list cell := [
  [ Import "matplotlib.pyplot" "plt";
    Import "numpy" "np";
    Import "xarray" "xr" ];
  [ Assign (Name "ds") (xr_tutorial "load_dataset" (Str Double "air_temperature"));
    Expr (Name "ds") ];
  [ plot_mean_over_time ];
  [ Comment ("# pull out " +:+ dq +:+ "air" +:+ dq +:+ " dataarray with dictionary syntax");
    Expr (Index (Name "ds") [Str Double "air"]) ];
  [ Comment "# pull out dataarray using dot notation";
    Expr ds_air ];
  [ Assign (Name "da") ds_air;
    Blank;
    Expr (Attr (Name "da") "name") ];
  [ Expr (Attr (Name "da") "dims") ];
  [ Expr (Attr (Name "da") "coords") ];
  [ Comment "# extracting coordinate variables";
    Expr (Attr (Name "da") "lon") ];
  [ Comment "# extracting coordinate variables from .coords";
    Expr (Index (Attr (Name "da") "coords") [Str Double "lon"]) ];
  [ Expr (Attr (Name "da") "attrs") ];
  [ Comment "# assign your own attributes!";
    Assign (Index (Attr (Name "da") "attrs") [Str Double "who_is_awesome"])
      (Str Double "xarray");
    Expr (Attr (Name "da") "attrs") ];
  [ Expr (Name "da") ];
  [ Expr (Attr (Name "da") "data") ];
  [ Comment "# what is the type of the underlying data";
    Expr (Call (Name "type") [pos (Attr (Name "da") "data")]) ];
  [ air_as_dictionary;
    Blank;
    Blank;
    Assign (Name "data") (Call (Name "air_as_dictionary") []);
    Blank;
    Blank;
    Comment "# Your code here" ];
  [ Comment "# plot the first timestep";
    Trailing (Assign (Name "lat") (Attr (Attr ds_air "lat") "data")) "# numpy array";
    Trailing (Assign (Name "lon") (Attr (Attr ds_air "lon") "data")) "# numpy array";
    Trailing (Assign (Name "temp") (Attr ds_air "data")) "# numpy array" ];
  [ Expr (Call (Attr (Name "plt") "figure") []);
    Semi (Expr (Call (Attr (Name "plt") "pcolormesh")
                  [pos (Name "lon"); pos (Name "lat");
                   pos (Index (Name "temp") [Num "0"; Colon; Colon])])) ];
  [ Trailing (Expr (method (Name "temp") "mean" [kw "axis" (Num "1")]))
      "## what did I just do? I can't tell by looking at this line." ];
  [ Semi (Expr (method (method ds_air "isel" [kw "time" (Num "0")]) "plot"
                  [kw "x" (Str Double "lon")])) ];
  [ plot_mean_over_time ];
  [ Comment "# here's what ds looks like";
    Expr (Name "ds") ];
  [ Comment "# pull out data for all of 2013-May";
    Expr (method (Name "ds") "sel" [kw "time" (Str Double "2013-05")]) ];
  [ Comment "# demonstrate slicing";
    Expr (method (Name "ds") "sel"
            [kw "time" (Call (Name "slice")
                          [pos (Str Double "2013-05"); pos (Str Double "2013-07")])]) ];
  [ Expr (method (Name "ds") "sel" [kw "time" (Str Double "2013")]) ];
  [ Comment ("# demonstrate " +:+ dq +:+ "nearest" +:+ dq +:+ " indexing");
    Expr (method (Name "ds") "sel"
            [kw "lon" (Num "240.2"); kw "method" (Str Double "nearest")]) ];
  [ Comment ("# " +:+ dq +:+ "nearest indexing at multiple points" +:+ dq);
    Expr (method (Name "ds") "sel"
            [kw "lon" (ListLit [Num "240.125"; Num "234"]);
             kw "lat" (ListLit [Num "40.3"; Num "50.3"]);
             kw "method" (Str Double "nearest")]) ];
  [ Expr (Index (Attr ds_air "data") [Num "0"; Num "2"; Num "3"]) ];
  [ Comment "# pull out time index 0, lat index 2, and lon index 3";
    Trailing
      (Expr (method ds_air "isel"
               [kw "time" (Num "0"); kw "lat" (Num "2"); kw "lon" (Num "3")]))
      "#  much better than ds.air[0, 2, 3]" ];
  [ Comment "# demonstrate slicing";
    Expr (method ds_air "isel" [kw "lat" (Call (Name "slice") [pos (Num "10")])]) ];
  precipitation_exercise;
  [];
  [];
  [] ].

(** *** Execution over symbolic values

    Library objects are opaque: a value records how it was obtained (which
    call, attribute, subscript or operator produced it), and every operation
    that is dispatched on a value is appended to a trace. *)

Inductive value :=
| VModule (m : string)
| VBuiltin (x : string)
| VNum (lit : string)
| VStr (s : string)
| VConst (c : string)
| VColon
| VAttr (v : value) (a : string)
| VCall (f : value) (args : list (option string * value))
| VIndex (v : value) (ix : list value)
| VBin (o : binop) (a b : value)
| VNeg (v : value)
| VList (vs : list value)
| VDict (kvs : list (value * value))
| VFunc (name : string) (params : list string) (body : list stmt).

Inductive op :=
| OpAttr (v : value) (a : string)
| OpCall (f : value) (args : list (option string * value))
| OpIndex (v : value) (ix : list value)
| OpStore (v : value) (ix : list value) (x : value)
| OpBin (o : binop) (a b : value)
| OpNeg (v : value).

Inductive error :=
| NameError (x : string)
| TypeError (what : string)
| SyntaxError (what : string)
| OutOfFuel.

Record state := {
  globals : gmap string value;
  locals : option (gmap string value);
  trace : list op }.

Definition initial : state :=
  {| globals := ∅; locals := None; trace := [] |}.

Definition M (A : Type) : Type := state -> error + (A * state).

Definition ret {A} (a : A) : M A := fun s => inr (a, s).

Definition fail {A} (e : error) : M A := fun _ => inl e.

Definition bind {A B} (m : M A) (k : A -> M B) : M B :=
  fun s =>
    match m s with
    | inl e => inl e
    | inr (a, s') => k a s'
    end.

Notation "'do' x <- m ; k" := (bind m (fun x => k))
  (at level 10, x name, m at level 100, k at level 200).
Notation "m ;; k" := (bind m (fun _ => k))
  (at level 100, k at level 200, right associativity).

Fixpoint mapM {A B} (f : A -> M B) (l : list A) : M (list B) :=
  match l with
  | [] => ret []
  | a :: l' => do b <- f a; do bs <- mapM f l'; ret (b :: bs)
  end.

Definition builtins : list string :=
  ["dict"; "float"; "int"; "len"; "list"; "print"; "range"; "slice"; "str";
   "tuple"; "type"].

(** Names are looked up in the local scope, then the module scope, then the
    builtins. *)
Definition lookup_name (x : string) : M value :=
  fun s =>
    match locals s ≫= (fun l => l !! x) with
    | Some v => inr (v, s)
    | None =>
        match globals s !! x with
        | Some v => inr (v, s)
        | None =>
            if bool_decide (x ∈ builtins) then inr (VBuiltin x, s)
            else inl (NameError x)
        end
    end.

Definition assign (x : string) (v : value) : M unit :=
  fun s =>
    match locals s with
    | Some l =>
        inr (tt, {| globals := globals s; locals := Some (<[x:=v]> l);
                    trace := trace s |})
    | None =>
        inr (tt, {| globals := <[x:=v]> (globals s); locals := None;
                    trace := trace s |})
    end.

Definition log (o : op) : M unit :=
  fun s =>
    inr (tt, {| globals := globals s; locals := locals s;
                trace := trace s ++ [o] |}).

Definition get_locals : M (option (gmap string value)) :=
  fun s => inr (locals s, s).

Definition set_locals (l : option (gmap string value)) : M unit :=
  fun s =>
    inr (tt, {| globals := globals s; locals := l; trace := trace s |}).

Inductive signal := Normal | Returned (v : value).

(** Binding of positional arguments to parameters. *)
Fixpoint bind_params (ps : list string) (args : list (option string * value))
  : option (gmap string value) :=
  match ps, args with
  | [], [] => Some ∅
  | p :: ps', (None, v) :: args' =>
      match bind_params ps' args' with
      | Some m => Some (<[p:=v]> m)
      | None => None
      end
  | _, _ => None
  end.

(** A block runs its statements in order and stops at a [return]. *)
Fixpoint run_block (step : stmt -> M signal) (b : list stmt) : M signal :=
  match b with
  | [] => ret Normal
  | s :: b' =>
      do r <- step s;
      match r with
      | Normal => run_block step b'
      | Returned v => ret (Returned v)
      end
  end.

(** [fuel] bounds the nesting of expressions, statements and calls. *)
Fixpoint eval (fuel : nat) (e : expr) {struct fuel} : M value :=
  match fuel with
  | O => fail OutOfFuel
  | S n =>
      match e with
      | Name x => lookup_name x
      | Num lit => ret (VNum lit)
      | Str _ s => ret (VStr s)
      | Const c => ret (VConst c)
      | Colon => ret VColon
      | Attr e' a =>
          do v <- eval n e';
          log (OpAttr v a);;
          ret (VAttr v a)
      | Call f args =>
          do fv <- eval n f;
          do avs <- mapM (fun a => do v <- eval n (snd a); ret (fst a, v)) args;
          log (OpCall fv avs);;
          match fv with
          | VFunc _ ps body =>
              match bind_params ps avs with
              | None => fail (TypeError "arguments do not match the parameters")
              | Some frame =>
                  do saved <- get_locals;
                  set_locals (Some frame);;
                  do r <- run_block (exec n) body;
                  set_locals saved;;
                  ret (match r with Returned v => v | Normal => VConst "None" end)
              end
          | _ => ret (VCall fv avs)
          end
      | Index e' ix =>
          do v <- eval n e';
          do ivs <- mapM (eval n) ix;
          log (OpIndex v ivs);;
          ret (VIndex v ivs)
      | BinOp o l r =>
          do a <- eval n l;
          do b <- eval n r;
          log (OpBin o a b);;
          ret (VBin o a b)
      | Neg e' =>
          do v <- eval n e';
          match v with
          | VNum lit => ret (VNum ("-" +:+ lit))
          | _ => log (OpNeg v);; ret (VNeg v)
          end
      | ListLit es =>
          do vs <- mapM (eval n) es;
          ret (VList vs)
      | DictLit _ kvs =>
          do vs <- mapM (fun kv => do k <- eval n (fst kv);
                                   do v <- eval n (snd kv);
                                   ret (k, v)) kvs;
          ret (VDict vs)
      end
  end

with exec (fuel : nat) (s : stmt) {struct fuel} : M signal :=
  match fuel with
  | O => fail OutOfFuel
  | S n =>
      match s with
      | Blank | Comment _ | Magic _ => ret Normal
      | Import m a => assign a (VModule m);; ret Normal
      | Assign (Name x) e =>
          do v <- eval n e;
          assign x v;;
          ret Normal
      | Assign (Index t ix) e =>
          do v <- eval n e;
          do b <- eval n t;
          do ivs <- mapM (eval n) ix;
          log (OpStore b ivs v);;
          ret Normal
      | Assign _ _ => fail (SyntaxError "unsupported assignment target")
      | Expr e => eval n e;; ret Normal
      | Return e =>
          do v <- eval n e;
          do l <- get_locals;
          match l with
          | Some _ => ret (Returned v)
          | None => fail (SyntaxError "'return' outside function")
          end
      | Def f ps body => assign f (VFunc f ps body);; ret Normal
      | Semi s' => exec n s'
      | Trailing s' _ => exec n s'
      end
  end.

(** Nesting depth allowed to one cell. *)
Definition depth : nat := 64.

Definition run_cell (c : cell) : M unit :=
  run_block (exec depth) c;; ret tt.

(** A notebook is run from a fresh kernel, cell after cell. *)
Fixpoint run_cells (cs : list cell) : M unit :=
  match cs with
  | [] => ret tt
  | c :: cs' => run_cell c;; run_cells cs'
  end.

Definition run_notebook (cs : list cell) : error + state :=
  match run_cells cs initial with
  | inl e => inl e
  | inr (_, s) => inr s
  end.

(** *** Provenance of values *)

(** The modules the notebooks import; none of them belongs to the
    repository. *)
Definition third_party : list string :=
  ["numpy"; "xarray"; "matplotlib.pyplot"].

(** A module, or a name reached from a module by attribute access only. *)
Fixpoint namespace (v : value) : bool :=
  match v with
  | VModule m => bool_decide (m ∈ third_party)
  | VAttr v' _ => namespace v'
  | _ => false
  end.

(** Values that live in a third-party library: its modules and whatever is
    obtained from them by attribute access, calls, subscripts and operators. *)
Fixpoint library_object (v : value) : bool :=
  match v with
  | VModule m => bool_decide (m ∈ third_party)
  | VAttr v' _ => library_object v'
  | VCall f _ => library_object f
  | VIndex v' _ => library_object v'
  | VBin _ a b => library_object a || library_object b
  | VNeg v' => library_object v'
  | _ => false
  end.

Definition is_dataset (v : value) : bool :=
  library_object v && negb (namespace v).

Definition loaders : list string :=
  ["load_dataset"; "open_dataset"; "open_datatree"].

(** [xr.tutorial.<loader>("name")] *)
Definition loader_call (v : value) : option (string * string) :=
  match v with
  | VCall (VAttr (VAttr (VModule "xarray") "tutorial") l) [(None, VStr name)] =>
      if bool_decide (l ∈ loaders) then Some (l, name) else None
  | _ => None
  end.

Definition constructors : list string :=
  ["Dataset"; "DataArray"; "DataTree"; "Variable"; "Coordinates"].

(** The functions of a module that hand back their data argument, transformed
    or wrapped, with the position of that argument among the positional
    ones: [np.log(x)], [np.nan_to_num(x)], [xr.apply_ufunc(f, x)],
    [xr.Dataset(x)]. *)
Definition data_argument (m f : string) : option nat :=
  if String.eqb m "numpy" then
    if bool_decide (f ∈ ["log"; "nan_to_num"]) then Some 0 else None
  else if String.eqb m "xarray" then
    if String.eqb f "apply_ufunc" then Some 1
    else if bool_decide (f ∈ constructors) then Some 0
    else None
  else None.

(** The [i]-th positional entry of a list of arguments, keywords skipped. *)
Fixpoint positional {A} (i : nat) (args : list (option string * A))
  : option A :=
  match args with
  | [] => None
  | (Some _, _) :: args' => positional i args'
  | (None, x) :: args' =>
      match i with
      | O => Some x
      | S i' => positional i' args'
      end
  end.

(** A value is fetched when it is the result of a tutorial loader, or is
    obtained from a fetched value by attribute access, subscript, operator or
    method call, or by one of the functions above applied to it.  Any other
    call of a module function makes a value of the notebook's own. *)
Fixpoint fetched (v : value) : bool :=
  match v with
  | VCall f args =>
      match loader_call v with
      | Some _ => true
      | None =>
          match f with
          | VAttr (VModule m) name =>
              match data_argument m name with
              | Some i =>
                  match positional i
                          (map (fun a => match a with (k, x) => (k, fetched x) end)
                             args) with
                  | Some b => b
                  | None => false
                  end
              | None => false
              end
          | _ => fetched f
          end
      end
  | VAttr v' _ => fetched v'
  | VIndex v' _ => fetched v'
  | VBin _ a b => fetched a || fetched b
  | VNeg v' => fetched v'
  | _ => false
  end.

(** The values an operation is dispatched on or handed. *)
Definition operands (o : op) : list value :=
  match o with
  | OpAttr v _ => [v]
  | OpCall f args =>
      (match f with VAttr r _ => [r] | _ => [] end ++ map snd args)%list
  | OpIndex v ix => v :: ix
  | OpStore v ix x => (v :: ix ++ [x])%list
  | OpBin _ a b => [a; b]
  | OpNeg v => [v]
  end.

Definition loads (tr : list op) : list (string * string) :=
  omap (fun o => match o with OpCall f args => loader_call (VCall f args) | _ => None end) tr.

Definition schema_keywords : list string :=
  ["dims"; "coords"; "attrs"; "data_vars"].

(** Methods with which a dataset is given variables, dimensions, coordinates
    or attributes. *)
Definition schema_methods : list string :=
  ["assign"; "assign_coords"; "assign_attrs"; "rename"; "rename_dims";
   "rename_vars"; "expand_dims"; "set_index"; "reset_index"; "swap_dims";
   "set_coords"; "reset_coords"; "update"; "merge"; "to_dataset"].

(** A constructor call that is given dimensions, coordinates or attributes,
    or data that is not fetched. *)
Definition builds_own (c : string) (args : list (option string * value))
  : bool :=
  bool_decide (c ∈ constructors) &&
  (existsb (fun a => match a with
                     | (Some k, _) => bool_decide (k ∈ schema_keywords)
                     | (None, _) => false
                     end) args ||
   negb (default false (positional 0 (map (fun a => (a.1, fetched a.2)) args)))).

(** The operations by which a notebook defines part of a dataset's schema
    itself: an item stored into a dataset or into its [attrs] or [coords], a
    schema method, a constructor call that builds a dataset of its own. *)
Definition schema_op (o : op) : bool :=
  match o with
  | OpStore v _ _ => is_dataset v
  | OpCall (VAttr (VModule m) c) args =>
      String.eqb m "xarray" && builds_own c args
  | OpCall (VAttr r m) _ =>
      is_dataset r && bool_decide (m ∈ schema_methods)
  | _ => false
  end.

(** Module functions that read a dataset from a file or a store. *)
Definition file_readers : list string :=
  ["open_dataset"; "open_dataarray"; "open_datatree"; "open_groups";
   "open_mfdataset"; "open_zarr"; "load_dataset"; "load_dataarray";
   "load"; "loadtxt"; "genfromtxt"; "fromfile"; "imread"].

Definition reads_file (o : op) : bool :=
  match o with
  | OpCall (VAttr (VModule _) f) _ => bool_decide (f ∈ file_readers)
  | _ => false
  end.

Definition plain_builtin (f : value) : bool :=
  match f with
  | VBuiltin x => bool_decide (x ∈ ["slice"; "type"])
  | _ => false
  end.

Definition user_function (f : value) : bool :=
  match f with VFunc _ _ _ => true | _ => false end.

(** The operation is carried out by a third-party library: it is dispatched
    on one of its objects, or calls one of its functions.  The other calls
    are the index and type helpers of the language and the functions the
    notebook defines, whose own operations are on the trace too. *)
Definition library_op (o : op) : bool :=
  match o with
  | OpAttr v _ => library_object v
  | OpCall f _ => library_object f || plain_builtin f || user_function f
  | OpIndex v _ => library_object v
  | OpStore v _ _ => library_object v
  | OpBin _ a b => library_object a || library_object b
  | OpNeg v => library_object v
  end.

(** *** Functions defined by a notebook *)

Fixpoint arith_free (e : expr) : bool :=
  match e with
  | BinOp _ _ _ | Neg _ => false
  | Attr e' _ => arith_free e'
  | Call f args =>
      arith_free f && forallb (fun a => match a with (_, x) => arith_free x end) args
  | Index e' ix => arith_free e' && forallb arith_free ix
  | ListLit es => forallb arith_free es
  | DictLit _ kvs =>
      forallb (fun kv => match kv with (k, v) => arith_free k && arith_free v end) kvs
  | _ => true
  end.

(** The name a call chain starts from: [xr] for [xr.tutorial.open_dataset(..)]. *)
Fixpoint root (e : expr) : option string :=
  match e with
  | Name x => Some x
  | Attr e' _ => root e'
  | Call f _ => root f
  | Index e' _ => root e'
  | _ => None
  end.

(** Callees of the calls inside an expression. *)
Fixpoint callees (e : expr) : list expr :=
  match e with
  | Attr e' _ => callees e'
  | Call f args =>
      (f :: callees f ++ flat_map (fun a => match a with (_, x) => callees x end) args)%list
  | Index e' ix => (callees e' ++ flat_map callees ix)%list
  | BinOp _ l r => (callees l ++ callees r)%list
  | Neg e' => callees e'
  | ListLit es => flat_map callees es
  | DictLit _ kvs =>
      flat_map (fun kv => match kv with (k, v) => (callees k ++ callees v)%list end) kvs
  | _ => []
  end.

(** A body that only calls into imported modules and repackages the results:
    assignments and a return, no arithmetic, every call rooted at [alias]. *)
Definition repackages (aliases : list string) (body : list stmt) : bool :=
  forallb (fun s =>
             match s with
             | Assign (Name _) e | Return e =>
                 arith_free e &&
                 forallb (fun f => match root f with
                                   | Some x => bool_decide (x ∈ aliases)
                                   | None => false
                                   end) (callees e)
             | Blank | Comment _ => true
             | _ => false
             end) body.

Fixpoint unwrap (s : stmt) : stmt :=
  match s with
  | Semi s' => unwrap s'
  | Trailing s' _ => unwrap s'
  | _ => s
  end.

Definition definitions (cs : list cell) : list stmt :=
  List.filter (fun s => match s with Def _ _ _ => true | _ => false end)
    (map unwrap (concat cs)).

Definition aliases (cs : list cell) : list string :=
  omap (fun s => match s with Import _ a => Some a | _ => None end)
    (map unwrap (concat cs)).

Definition imports (cs : list cell) : list string :=
  omap (fun s => match s with Import m _ => Some m | _ => None end)
    (map unwrap (concat cs)).

Definition body_of (s : stmt) : list stmt :=
  match s with Def _ _ body => body | _ => [] end.

Definition name_of (s : stmt) : string :=
  match s with Def f _ _ => f | _ => EmptyString end.

(** *** Checks on a finished run *)

Definition precipitation_tree : value :=
  VCall (VAttr (VAttr (VModule "xarray") "tutorial") "open_datatree")
    [(None, VStr "precipitation.nc4")].

Definition dataset_of_node (node : string) : value :=
  VCall (VAttr (VModule "xarray") "Dataset")
    [(None, VIndex precipitation_tree [VStr node])].

Definition tutorial_datasets : list string :=
  ["ersstv5"; "air_temperature"; "precipitation.nc4"].

Definition provenance_ok (s : state) : bool :=
  forallb (fun o => forallb (fun v => implb (is_dataset v) (fetched v))
                      (operands o)) (trace s) &&
  forallb (fun o => negb (reads_file o)) (trace s) &&
  forallb (fun ld => bool_decide (ld.1 ∈ loaders) &&
                     bool_decide (ld.2 ∈ tutorial_datasets))
    (loads (trace s)).



Definition calls_of (name : string) (tr : list op) : nat :=
  length (List.filter
            (fun o => match o with
                      | OpCall (VFunc f _ _) _ => String.eqb f name
                      | _ => false
                      end) tr).

Definition nonempty (c : cell) : bool :=
  match c with [] => false | _ => true end.

(** *** The notebooks with their code *)

Definition parsed : list (Json.json * list cell) :=
  [(Notebook.basic_computation, basic_computation_code);
   (Notebook.data_structures, data_structures_code);
   (Notebook.scipy2025_index, [])].

(** *** Calling [air_as_dictionary] *)

Definition air_function : value :=
  VFunc "air_as_dictionary" [] (body_of air_as_dictionary).

(** The dataset the function opens, with [X] what the name [xr] is bound to. *)
Definition air_dataset (X : value) : value :=
  VCall (VAttr (VAttr X "tutorial") "open_dataset")
    [(None, VStr "air_temperature")].

Definition air_values (X : value) (name : string) : value :=
  VAttr (VIndex (air_dataset X) [VStr name]) "values".

Definition air_dictionary (X : value) : value :=
  VDict [(VStr "lat", air_values X "lat");
         (VStr "lon", air_values X "lon");
         (VStr "attrs", VAttr (air_dataset X) "attrs");
         (VStr "time", air_values X "time");
         (VStr "air-temp", air_values X "air")].

Definition in_kernel (g : gmap string value) (tr : list op) : state :=
  {| globals := g; locals := None; trace := tr |}.

(** The cell that defines the function and calls it, without its comments
    and blank lines. *)
Definition define_and_call : cell :=
  [air_as_dictionary; Assign (Name "data") (Call (Name "air_as_dictionary") [])].

Definition xarray_only : gmap string value := {[ "xr" := VModule "xarray" ]}.

Definition is_name_error (r : error + state) : bool :=
  match r with inl (NameError _) => true | _ => false end.

(** The code cells after the first one that are not empty. *)
Definition later_cells (cs : list cell) : list cell :=
  List.filter nonempty (tail cs).

End Python.

(** ** The files of the repository *)

Module Repository.
Import Yaml Json Notebook Workflow.

Inductive file :=
| JsonFile (j : json)
| YamlFile (y : yaml).

Inductive kind := IsNotebook | IsWorkflow | IsOther.

#[global] Instance kind_eq_dec : EqDecision kind.
Proof. solve_decision. Defined.

Definition is_workflow (y : yaml) : bool :=
  bool_decide ("on" ∈ keys y) && bool_decide ("jobs" ∈ keys y).

(** A JSON file that is not a notebook (the metadata of a Zarr store, say)
    or a YAML file that is not a workflow is something else: data. *)
Definition kind_of (f : file) : kind :=
  match f with
  | JsonFile j => if valid_notebook j then IsNotebook else IsOther
  | YamlFile y => if is_workflow y then IsWorkflow else IsOther
  end.


End Repository.

(** * Properties *)

(** ** Text *)

Module TextFacts.
Import Text.

Lemma app_empty_r (s : string) : s +:+ EmptyString = s.
Proof.
  induction s as [|c s IH]; [done|].
  change (String c (s +:+ EmptyString) = String c s). by rewrite IH.
Qed.

Lemma app_cons (c : ascii) (p s : string) :
  String c p +:+ s = String c (p +:+ s).
Proof. reflexivity. Qed.

Lemma app_inj_l (p a b : string) : p +:+ a = p +:+ b -> a = b.
Proof.
  induction p as [|c p IH]; [done|].
  rewrite !app_cons. intros [= H]. by apply IH.
Qed.

Lemma strip_prefix_app (p s : string) : strip_prefix p (p +:+ s) = Some s.
Proof.
  induction p as [|a p IH]; [done|].
  rewrite app_cons. simpl. by rewrite Ascii.eqb_refl.
Qed.

Lemma strip_prefix_Some (p s r : string) :
  strip_prefix p s = Some r -> s = p +:+ r.
Proof.
  revert s. induction p as [|a p IH]; intros s; simpl.
  - by intros [= ->].
  - destruct s as [|b s]; [done|].
    destruct (Ascii.eqb a b) eqn:E; [|done].
    apply Ascii.eqb_eq in E as ->. intros H.
    rewrite app_cons. f_equal. by apply IH.
Qed.

(** [is_prefix] decides "starts with". *)
Lemma is_prefix_spec (p s : string) :
  is_prefix p s = true <-> exists rest, s = p +:+ rest.
Proof.
  unfold is_prefix. split.
  - destruct (strip_prefix p s) as [r|] eqn:E; [|done].
    intros _. exists r. by apply strip_prefix_Some.
  - intros [r ->]. by rewrite strip_prefix_app.
Qed.

End TextFacts.

(** ** The workflow *)

Module WorkflowFacts.
Import Text Yaml Workflow TextFacts.

Lemma preview_steps_eq :
  preview_steps =
  [checkout_step; cache_step; setup_pixi_step; build_step; dump_logs_step;
   upload_step].
Proof. reflexivity. Qed.

(** *** Triggers *)

Lemma any_suffix_end (s : string) : any_suffix (glob EmptyString) s = true.
Proof.
  induction s as [|c s IH]; [done|].
  simpl. exact IH.
Qed.

(** A literal directory followed by [**] matches the paths that start with
    the directory. *)
Lemma glob_under (dir s : string) :
  star_free dir = true -> glob (dir +:+ "**") s = is_prefix dir s.
Proof.
  revert s. induction dir as [|a dir IH]; intros s Hfree.
  - change (any_suffix (glob EmptyString) s = true). apply any_suffix_end.
  - simpl in Hfree. apply andb_prop in Hfree as [Ha Hfree].
    apply negb_true_iff in Ha.
    rewrite app_cons. simpl. rewrite Ha.
    destruct s as [|b s]; [done|].
    unfold is_prefix. simpl.
    destruct (Ascii.eqb a b); [|done].
    simpl. rewrite IH by done. reflexivity.
Qed.

Lemma trigger_of_event (ev : event) :
  get_path ["on"; ev_name ev] pull_request_build =
  if String.eqb (ev_name ev) "pull_request" then Some pull_request_trigger
  else None.
Proof.
  change (get_path ["on"; ev_name ev] pull_request_build)
    with (match assoc (ev_name ev) [("pull_request", pull_request_trigger)] with
          | Some y' => Some y'
          | None => None
          end).
  simpl. by destruct (String.eqb (ev_name ev) "pull_request").
Qed.

Lemma paths_ok_spec (ev : event) :
  paths_ok pull_request_trigger ev = true <->
  exists p, p ∈ ev_paths ev /\ ~ exists rest, p = ".devcontainer/" +:+ rest.
Proof.
  change (paths_ok pull_request_trigger ev)
    with (existsb (fun p => negb (glob (".devcontainer/" +:+ "**") p || false))
            (ev_paths ev)).
  rewrite existsb_exists. split.
  - intros (p & Hin & Hp). exists p. split; [by apply list_elem_of_In|].
    rewrite orb_false_r, glob_under in Hp by done.
    apply negb_true_iff in Hp. rewrite <- is_prefix_spec. by rewrite Hp.
  - intros (p & Hin & Hp). exists p. split; [by apply list_elem_of_In|].
    rewrite orb_false_r, glob_under by done.
    apply negb_true_iff. rewrite <- is_prefix_spec in Hp.
    by destruct (is_prefix ".devcontainer/" p).
Qed.

(** C9: the workflow runs exactly for [pull_request] events whose action is
    opened, synchronize, reopened or closed and that change some path outside
    [.devcontainer/]; so it runs for no other event or action, and not when
    every changed path lies under [.devcontainer/**]. *)
Theorem triggers_pull_request_outside_devcontainer (ev : event) :
  triggers pull_request_build ev = true <->
  ev_name ev = "pull_request" /\
  ev_action ev ∈ ["opened"; "synchronize"; "reopened"; "closed"] /\
  exists p, p ∈ ev_paths ev /\ ~ exists rest, p = ".devcontainer/" +:+ rest.
Proof.
  unfold triggers. rewrite trigger_of_event.
  destruct (String.eqb_spec (ev_name ev) "pull_request") as [Hn|Hn].
  - rewrite andb_true_iff, paths_ok_spec.
    change (activity_ok pull_request_trigger ev)
      with (bool_decide
              (ev_action ev ∈ ["opened"; "synchronize"; "reopened"; "closed"])).
    rewrite bool_decide_eq_true. tauto.
  - split; [done | tauto].
Qed.

Lemma triggers_pull_request_outside_devcontainer_witness :
  triggers pull_request_build readme_opened = true.
Proof.
  apply (proj2 (triggers_pull_request_outside_devcontainer readme_opened)).
  split; [reflexivity|]. split; [apply list_elem_of_here|].
  exists "README.md". split.
  - apply list_elem_of_further, list_elem_of_here.
  - intros [rest H]. vm_compute in H. discriminate H.
Defined.

(** *** Step conditions *)

Lemma guard_closed (c : context) (ok : bool) (st : yaml) :
  event_action c = "closed" ->
  get "if" st = Some (Scalar "github.event.action != 'closed'") ->
  step_enabled ok c st = Some false.
Proof.
  intros Hc Hif. unfold step_enabled. rewrite Hif.
  change (eval_if "github.event.action != 'closed'" c)
    with (Some (negb (String.eqb (lower (event_action c)) "closed"))).
  rewrite Hc. simpl. by rewrite andb_false_r.
Qed.

Lemma run_steps_skip (succeeds : yaml -> bool) (c : context) (ok : bool)
    (st : yaml) (sts : list yaml) :
  step_enabled ok c st = Some false ->
  run_steps succeeds c ok (st :: sts) =
  match run_steps succeeds c ok sts with
  | Some r => Some (Skipped :: r)
  | None => None
  end.
Proof. intros H. simpl. by rewrite H. Qed.

(** C8: in the preview job every step but the local setup-pixi action carries
    the guard [github.event.action != 'closed']; for an event whose action is
    closed, checkout, cache, build, log dump and upload are skipped and the
    setup-pixi step is run. *)
Theorem closed_event_runs_only_setup_pixi :
  (forall st, st ∈ preview_steps ->
     get "if" st =
     if local_action st then None
     else Some (Scalar "github.event.action != 'closed'")) /\
  List.filter local_action preview_steps = [setup_pixi_step] /\
  forall (succeeds : yaml -> bool) (c : context),
    event_action c = "closed" ->
    run_job succeeds c preview_job =
    Some [Skipped; Skipped;
          if succeeds setup_pixi_step then Succeeded else Failed;
          Skipped; Skipped; Skipped].
Proof.
  split; [|split].
  - intros st Hst. rewrite preview_steps_eq in Hst.
    repeat (apply elem_of_cons in Hst as [->|Hst]; [reflexivity|]).
    by apply elem_of_nil in Hst.
  - reflexivity.
  - intros succeeds c Hc.
    change (run_job succeeds c preview_job)
      with (run_steps succeeds c true
              [checkout_step; cache_step; setup_pixi_step; build_step;
               dump_logs_step; upload_step]).
    rewrite 2!run_steps_skip by (by apply guard_closed).
    change (run_steps succeeds c true (setup_pixi_step :: ?l))
      with (match run_steps succeeds c (true && succeeds setup_pixi_step) l with
            | Some r =>
                Some ((if succeeds setup_pixi_step then Succeeded else Failed) :: r)
            | None => None
            end).
    rewrite 3!run_steps_skip by (by apply guard_closed).
    reflexivity.
Qed.

Lemma closed_event_runs_only_setup_pixi_witness :
  run_job (fun _ => true) closed_context preview_job =
  Some [Skipped; Skipped; Succeeded; Skipped; Skipped; Skipped].
Proof.
  apply (proj2 (proj2 closed_event_runs_only_setup_pixi) (fun _ => true)
           closed_context).
  reflexivity.
Defined.

(** For the other actions every step runs, and a failed build skips what
    follows it. *)
Example opened_event_runs_every_step :
  run_job (fun _ => true) opened_context preview_job =
  Some [Succeeded; Succeeded; Succeeded; Succeeded; Succeeded; Succeeded].
Proof. reflexivity. Qed.

Example failed_build_skips_the_rest :
  run_job (fun st => negb (bool_decide (role_of st = Build))) opened_context
    preview_job =
  Some [Succeeded; Succeeded; Succeeded; Failed; Skipped; Skipped].
Proof. reflexivity. Qed.

(** *** The preview job *)

Lemma preview_steps_ind (P : yaml -> Prop) :
  P checkout_step -> P cache_step -> P setup_pixi_step -> P build_step ->
  P dump_logs_step -> P upload_step ->
  forall st, st ∈ steps preview_job -> P st.
Proof.
  intros ? ? ? ? ? ? st Hst.
  change (steps preview_job) with preview_steps in Hst.
  rewrite preview_steps_eq in Hst.
  repeat (apply elem_of_cons in Hst as [->|Hst]; [assumption|]).
  by apply elem_of_nil in Hst.
Qed.

(** C5, as stated, fails: the build step is accompanied by more than a cache
    and an upload step (the log dump is a script of its own, with a shell
    conditional, and it is guarded). *)
Lemma preview_job_not_thin : ~ thin_build_job pull_request_build.
Proof.
  intros (_ & job & Hjob & Hroles & _).
  injection Hjob as <-.
  specialize (Hroles dump_logs_step).
  assert (Hin : dump_logs_step ∈ steps preview_job).
  { change (steps preview_job) with preview_steps. rewrite preview_steps_eq.
    do 4 apply list_elem_of_further. apply list_elem_of_here. }
  apply Hroles in Hin. change (role_of dump_logs_step) with Script in Hin.
  repeat (apply elem_of_cons in Hin as [Hin|Hin]; [discriminate Hin|]).
  by apply elem_of_nil in Hin.
Qed.

(** C5, amended: the workflow has the single job [preview]; its six steps are
    checkout, cache over the fixed directory [_build], the local setup-pixi
    action, the build (one direct [jupyter-book build] command line), the log
    dump and the artifact upload of [_build/html]; nothing retries; the only
    control flow is the guard on the steps other than setup-pixi and the shell
    conditional of the log dump. *)
Theorem preview_job_shape :
  job_names pull_request_build = ["preview"] /\
  get_path ["jobs"; "preview"] pull_request_build = Some preview_job /\
  map role_of (steps preview_job) =
    [Checkout; Cache; LocalAction; Build; Script; Upload] /\
  script build_step = ["jupyter-book build ./ --warningiserror --keep-going"] /\
  branches build_step = false /\
  (get_path ["with"; "path"] cache_step = Some (Scalar "_build") /\
   fixed "_build" = true) /\
  get_path ["with"; "path"] upload_step = Some (Scalar "_build/html") /\
  (forall st, st ∈ preview_job :: steps preview_job -> retries st = false) /\
  (forall st, st ∈ steps preview_job ->
     guarded st = negb (local_action st) /\
     (branches st = true <-> st = dump_logs_step)).
Proof.
  split; [reflexivity|]. split; [reflexivity|]. split; [reflexivity|].
  split; [reflexivity|]. split; [reflexivity|]. split; [by split|].
  split; [reflexivity|]. split.
  - intros st Hst.
    repeat (apply elem_of_cons in Hst as [->|Hst]; [reflexivity|]).
    by apply elem_of_nil in Hst.
  - apply preview_steps_ind; (split; [reflexivity|]); split;
      solve [reflexivity | discriminate].
Qed.

(** *** Concurrency *)

Lemma group_of_run (r : run) :
  group_of pull_request_build r = Some ("Pull Request Build-" +:+ run_ref r).
Proof.
  transitivity
    (Some ("Pull Request Build" +:+ "-" +:+ run_ref r +:+ EmptyString));
    [reflexivity|].
  by rewrite app_empty_r.
Qed.

Lemma same_group_ref (r r' : run) :
  same_group pull_request_build r r' = true <-> run_ref r = run_ref r'.
Proof.
  unfold same_group. rewrite !group_of_run, String.eqb_eq. split.
  - apply app_inj_l.
  - by intros ->.
Qed.

Lemma NoDup_refs_filter (f : run -> bool) (l : list run) :
  NoDup (map run_ref l) -> NoDup (map run_ref (List.filter f l)).
Proof.
  induction l as [|x l IH]; [done|].
  simpl. rewrite NoDup_cons. intros [Hx Hl].
  destruct (f x); [|by apply IH].
  simpl. apply NoDup_cons. split; [|by apply IH].
  intros Hin. apply Hx.
  apply list_elem_of_In, in_map_iff in Hin as (y & Hy & Hin).
  apply filter_In in Hin as [Hin _].
  apply list_elem_of_In, in_map_iff. eauto.
Qed.

Lemma enqueue_exclusive (r : run) (q : queue) :
  exclusive q -> exclusive (enqueue pull_request_build r q).
Proof.
  intros [Hp Hnd]. unfold enqueue.
  change (cancel_in_progress pull_request_build) with true. cbv iota.
  destruct (existsb (same_group pull_request_build r) (in_progress q)) eqn:E.
  - split; simpl; [by rewrite Hp|].
    apply NoDup_cons. split; [|by apply NoDup_refs_filter].
    intros Hin.
    apply list_elem_of_In, in_map_iff in Hin as (y & Hy & Hin).
    apply filter_In in Hin as [_ Hin].
    apply negb_true_iff in Hin.
    symmetry in Hy. apply same_group_ref in Hy. congruence.
  - split; simpl; [done|].
    apply NoDup_cons. split; [|done].
    intros Hin.
    apply list_elem_of_In, in_map_iff in Hin as (y & Hy & Hin).
    assert (existsb (same_group pull_request_build r) (in_progress q) = true);
      [|congruence].
    apply existsb_exists. exists y. split; [done|].
    by apply same_group_ref.
Qed.

Lemma finish_exclusive (id : nat) (q : queue) :
  exclusive q -> exclusive (finish pull_request_build id q).
Proof.
  intros [Hp Hnd]. unfold finish. rewrite Hp. split; simpl; [done|].
  by apply NoDup_refs_filter.
Qed.

Lemma schedule_exclusive_from (es : list sched_event) (q : queue) :
  exclusive q -> exclusive (fold_left (sched_step pull_request_build) es q).
Proof.
  revert q. induction es as [|e es IH]; intros q Hq; [done|].
  simpl. apply IH. destruct e; [by apply enqueue_exclusive|by apply finish_exclusive].
Qed.

Lemma schedule_exclusive (es : list sched_event) :
  exclusive (schedule pull_request_build es).
Proof. apply schedule_exclusive_from. split; [done|apply NoDup_nil_2]. Qed.

(** C3: every run is put in the group named by the workflow name and the ref,
    with [cancel-in-progress] set; so after any history of runs starting and
    finishing, two runs in progress never have the same ref, and a run that
    starts cancels the run of its ref that was in progress. *)
Theorem one_run_in_progress_per_ref (es : list sched_event) :
  let q := schedule pull_request_build es in
  (forall r, group_of pull_request_build r =
             Some (workflow_name pull_request_build +:+ "-" +:+ run_ref r)) /\
  cancel_in_progress pull_request_build = true /\
  (forall i j r1 r2,
     in_progress q !! i = Some r1 -> in_progress q !! j = Some r2 ->
     run_ref r1 = run_ref r2 -> i = j) /\
  (forall r,
     let q' := sched_step pull_request_build q (Start r) in
     r ∈ in_progress q' /\
     forall r', r' ∈ in_progress q -> run_ref r' = run_ref r ->
                r' ∈ cancelled q' /\
                forall k, in_progress q' !! S k = Some r' -> False).
Proof.
  intros q. split; [exact group_of_run|]. split; [reflexivity|]. split.
  - intros i j r1 r2 H1 H2 Href.
    destruct (schedule_exclusive es) as [_ Hnd]. fold q in Hnd.
    apply (NoDup_lookup (map run_ref (in_progress q)) i j (run_ref r1)); [done|..].
    + change (map run_ref (in_progress q)) with (run_ref <$> in_progress q).
      by rewrite list_lookup_fmap, H1.
    + change (map run_ref (in_progress q)) with (run_ref <$> in_progress q).
      by rewrite list_lookup_fmap, H2, Href.
  - intros r q'. subst q'. simpl. unfold enqueue.
    change (cancel_in_progress pull_request_build) with true. cbv iota.
    destruct (existsb (same_group pull_request_build r) (in_progress q)) eqn:E.
    + split; [apply list_elem_of_here|].
      intros r' Hin Href. simpl. split.
      * apply elem_of_app. left. apply list_elem_of_In, filter_In.
        split; [by apply list_elem_of_In|]. by apply same_group_ref.
      * intros k Hk.
        apply list_elem_of_lookup_2, list_elem_of_In, filter_In in Hk as [_ Hk].
        apply negb_true_iff in Hk.
        symmetry in Href. apply same_group_ref in Href. congruence.
    + split; [apply list_elem_of_here|].
      intros r' Hin Href. exfalso.
      assert (existsb (same_group pull_request_build r) (in_progress q) = true);
        [|congruence].
      apply existsb_exists. exists r'. split; [by apply list_elem_of_In|].
      by apply same_group_ref.
Qed.

Lemma one_run_in_progress_per_ref_witness :
  in_progress (schedule pull_request_build [Start (pr7 1); Start (pr7 2)]) =
    [pr7 2] /\
  pr7 1 ∈ cancelled (schedule pull_request_build [Start (pr7 1); Start (pr7 2)]).
Proof.
  split; [reflexivity|].
  destruct (one_run_in_progress_per_ref [Start (pr7 1)]) as (_ & _ & _ & H).
  destruct (H (pr7 2)) as [_ H'].
  apply (H' (pr7 1)); [apply list_elem_of_here | reflexivity].
Defined.

End WorkflowFacts.

(** ** The notebooks *)

Module NotebookFacts.
Import Text Json Notebook.

(** C4: each notebook is a valid nbformat-4 document whose [cells] field is a
    list of cells of type markdown or code, and of no other type. *)
Theorem notebooks_are_markdown_and_code (nb : json) :
  nb ∈ notebooks ->
  valid_notebook nb = true /\
  nbformat nb = Some 4%Z /\
  exists cs, field "cells" nb = Some (JArr cs) /\
    forall c, c ∈ cs ->
      cell_type c = Some "markdown" \/ cell_type c = Some "code".
Proof.
  intros Hnb.
  assert (Hcells : forall cs : list json,
            forallb (fun c => is_markdown c || is_code c) cs = true ->
            forall c, c ∈ cs ->
              cell_type c = Some "markdown" \/ cell_type c = Some "code").
  { intros cs Hall c Hc.
    rewrite forallb_forall in Hall.
    apply list_elem_of_In, Hall, orb_true_iff in Hc.
    unfold is_markdown, is_code in Hc.
    by rewrite !bool_decide_eq_true in Hc. }
  unfold notebooks in Hnb.
  repeat (apply elem_of_cons in Hnb as [->|Hnb];
          [split; [by vm_compute|]; split; [reflexivity|];
           eexists; split; [reflexivity|]; apply Hcells; by vm_compute|]).
  by apply elem_of_nil in Hnb.
Qed.

Lemma notebooks_are_markdown_and_code_witness :
  valid_notebook scipy2025_index = true /\
  map cell_type (cells scipy2025_index) =
    [Some "markdown"; Some "markdown"; Some "markdown"].
Proof.
  split; [|reflexivity].
  apply (notebooks_are_markdown_and_code scipy2025_index).
  do 2 apply list_elem_of_further. apply list_elem_of_here.
Defined.

(** The validator is not vacuous: a cell type outside the schema is refused. *)
Example heading_cell_is_refused :
  valid_notebook
    (JObj [("cells", JArr [JObj [("cell_type", JStr "heading");
                                 ("metadata", JObj []);
                                 ("source", JArr [])]]);
           ("metadata", JObj []);
           ("nbformat", JNum 4);
           ("nbformat_minor", JNum 4)]) = false.
Proof. reflexivity. Qed.

End NotebookFacts.

(** ** The code cells *)

Module PythonFacts.
Import Text Json Notebook Python.

(** The syntax trees are the code cells: printed, they give back the cell
    sources of the notebook files character by character. *)
Lemma code_prints_back (nb : json) (code : list cell) :
  (nb, code) ∈ parsed -> map show_cell code = code_sources nb.
Proof.
  intros H. unfold parsed in H.
  repeat (apply elem_of_cons in H as [[= -> ->]|H]; [by vm_compute|]).
  by apply elem_of_nil in H.
Qed.

Lemma forallb_elem_of {A} (f : A -> bool) (l : list A) :
  forallb f l = true -> forall x, x ∈ l -> f x = true.
Proof.
  intros H x Hx. rewrite forallb_forall in H. by apply H, list_elem_of_In.
Qed.







(** C7: every operation a notebook carries out (attribute access, call,
    subscript, arithmetic) is dispatched on an object of an imported
    third-party library or calls one of its functions, apart from the [slice]
    and [type] helpers and the one function the notebooks define,
    [air_as_dictionary], whose body only calls [xr] and repackages the
    results in a dictionary. *)
Theorem operations_are_library_calls (nb : json) (code : list cell) :
  (nb, code) ∈ parsed ->
  map show_cell code = code_sources nb /\
  (forall m, m ∈ imports code -> m ∈ third_party) /\
  (exists s, run_notebook code = inr s /\
     (forall o, o ∈ trace s -> library_op o = true) /\
     forall d, d ∈ definitions code -> calls_of (name_of d) (trace s) = 1) /\
  (forall d, d ∈ definitions code ->
     d = air_as_dictionary /\ repackages (aliases code) (body_of d) = true).
Proof.
  intros H. split; [by apply code_prints_back|].
  unfold parsed in H.
  repeat (apply elem_of_cons in H as [[= -> ->]|H];
    [split; [|split];
     [ intros m Hm; vm_compute in Hm; unfold third_party;
       repeat (apply elem_of_cons in Hm as [->|Hm]; [set_solver|]);
       by apply elem_of_nil in Hm
     | eexists; split; [vm_compute; reflexivity|]; split;
       [ apply forallb_elem_of; vm_compute; reflexivity
       | intros d Hd; vm_compute in Hd;
         repeat (apply elem_of_cons in Hd as [->|Hd]; [reflexivity|]);
         by apply elem_of_nil in Hd ]
     | intros d Hd; vm_compute in Hd;
       repeat (apply elem_of_cons in Hd as [->|Hd]; [by split|]);
       by apply elem_of_nil in Hd ]|]).
  by apply elem_of_nil in H.
Qed.

Lemma operations_are_library_calls_witness :
  exists s, run_notebook data_structures_code = inr s /\
    forall o, o ∈ trace s -> library_op o = true.
Proof.
  destruct (operations_are_library_calls data_structures
              data_structures_code) as (_ & _ & (s & Hs & H & _) & _).
  { apply list_elem_of_further, list_elem_of_here. }
  exists s. split; [exact Hs | exact H].
Defined.

(** C10: the last exercise of the data-structures notebook binds
    [reanalysis] to the Dataset built from the tree node 'observed' and
    [observed] to the Dataset built from the tree node 'reanalysis'. *)
Theorem precipitation_names_are_swapped :
  last (List.filter nonempty data_structures_code) = Some precipitation_exercise /\
  show_cell precipitation_exercise =
    ln "tree = xr.tutorial.open_datatree('precipitation.nc4')" +:+
    ln "reanalysis = xr.Dataset(tree['observed'])" +:+
    "observed = xr.Dataset(tree['reanalysis'])" /\
  (exists s0, run_notebook (take 30 data_structures_code) = inr s0 /\
     globals s0 !! "reanalysis" = None /\ globals s0 !! "observed" = None) /\
  exists s, run_notebook data_structures_code = inr s /\
    globals s !! "tree" = Some precipitation_tree /\
    globals s !! "reanalysis" = Some (dataset_of_node "observed") /\
    globals s !! "observed" = Some (dataset_of_node "reanalysis").
Proof.
  split; [reflexivity|]. split; [by vm_compute|]. split.
  - eexists. split; [vm_compute; reflexivity|]. by vm_compute.
  - eexists. split; [vm_compute; reflexivity|]. by vm_compute.
Qed.

(** The checks are not vacuous: an array made in the notebook is not fetched,
    also when it is made from the size of a fetched one; coordinates and
    attributes a notebook sets are schema operations; arithmetic on plain
    numbers is not a library operation. *)
Example local_array_is_not_fetched :
  match run_notebook [[Import "numpy" "np";
                       Assign (Name "a") (Call (Attr (Name "np") "arange") [pos (Num "3")]);
                       Expr (method (Name "a") "mean" [])]] with
  | inr s => provenance_ok s
  | inl _ => true
  end = false.
Proof. by vm_compute. Qed.

Example array_of_fetched_size_is_not_fetched :
  match run_notebook
          [[Import "numpy" "np";
            Import "xarray" "xr";
            Assign (Name "ds") (xr_tutorial "load_dataset" (Str Double "air_temperature"));
            Assign (Name "a")
              (Call (Attr (Name "xr") "DataArray")
                 [pos (Call (Attr (Attr (Name "np") "random") "rand")
                         [pos (Attr ds_air "size")])])]] with
  | inr s => (provenance_ok s, length (List.filter schema_op (trace s)))
  | inl _ => (true, 0)
  end = (false, 1).
Proof. by vm_compute. Qed.

Example own_coordinates_and_attributes_are_schema_operations :
  match run_notebook
          [[Import "xarray" "xr";
            Assign (Name "ds") (xr_tutorial "load_dataset" (Str Double "air_temperature"));
            Assign (Index (Attr (Name "ds") "coords") [Str Double "station"])
              (Str Double "here");
            Assign (Index (Name "ds") [Str Double "air2"]) ds_air;
            Expr (method (Name "ds") "assign_attrs" [kw "title" (Str Double "mine")])]] with
  | inr s => length (List.filter schema_op (trace s))
  | inl _ => 0
  end = 3.
Proof. by vm_compute. Qed.

Example zarr_metadata_is_not_a_notebook :
  Repository.kind_of (Repository.JsonFile (JObj [("zarr_format", JNum 2)])) =
  Repository.IsOther.
Proof. reflexivity. Qed.

Example plain_arithmetic_is_not_a_library_operation :
  match run_notebook [[Assign (Name "x") (BinOp Add (Num "1") (Num "2"))]] with
  | inr s => forallb library_op (trace s)
  | inl _ => true
  end = false.
Proof. by vm_compute. Qed.

Example unbound_name_is_an_error :
  run_notebook [[Expr (Name "sst")]] = inl (NameError "sst").
Proof. by vm_compute. Qed.

End PythonFacts.

(** * Further properties *)

(** ** The preview job under any outcome of its steps *)

Module JobFacts.
Import Text Yaml Workflow TextFacts WorkflowFacts.

Lemma guard_value (c : context) (ok : bool) (st : yaml) :
  get "if" st = Some (Scalar "github.event.action != 'closed'") ->
  step_enabled ok c st = Some (ok && negb (closed_action c)).
Proof.
  intros Hif. unfold step_enabled. rewrite Hif. reflexivity.
Qed.

Lemma unguarded_value (c : context) (ok : bool) (st : yaml) :
  get "if" st = None -> step_enabled ok c st = Some ok.
Proof. intros Hif. unfold step_enabled. by rewrite Hif. Qed.

Lemma run_steps_cascade (succeeds : yaml -> bool) (c : context)
    (sts : list yaml) (ok : bool) :
  (forall st, st ∈ sts -> forall ok', step_enabled ok' c st = Some ok') ->
  run_steps succeeds c ok sts = Some (cascade ok (map succeeds sts)).
Proof.
  revert ok. induction sts as [|st sts IH]; intros ok Hen; [done|].
  simpl. rewrite (Hen st) by apply list_elem_of_here.
  assert (Hrest : forall st', st' ∈ sts ->
            forall ok', step_enabled ok' c st' = Some ok').
  { intros st' Hin. apply Hen. by apply list_elem_of_further. }
  destruct ok.
  - rewrite (IH _ Hrest). simpl. by destruct (succeeds st).
  - rewrite (IH _ Hrest). reflexivity.
Qed.

(** The statuses of the preview job, whatever the event and the outcome of
    the steps. *)
Lemma preview_statuses (succeeds : yaml -> bool) (c : context) :
  run_job succeeds c preview_job =
  Some (if closed_action c
        then [Skipped; Skipped;
              if succeeds setup_pixi_step then Succeeded else Failed;
              Skipped; Skipped; Skipped]
        else cascade true (map succeeds preview_steps)).
Proof.
  destruct (closed_action c) eqn:Hc.
  - change (run_job succeeds c preview_job)
      with (run_steps succeeds c true
              [checkout_step; cache_step; setup_pixi_step; build_step;
               dump_logs_step; upload_step]).
    assert (Hskip : forall ok st,
              get "if" st = Some (Scalar "github.event.action != 'closed'") ->
              step_enabled ok c st = Some false).
    { intros ok st Hif. rewrite (guard_value c ok st Hif), Hc.
      by rewrite andb_false_r. }
    rewrite 2!run_steps_skip by (by apply Hskip).
    change (run_steps succeeds c true (setup_pixi_step :: ?l))
      with (match run_steps succeeds c (true && succeeds setup_pixi_step) l with
            | Some r =>
                Some ((if succeeds setup_pixi_step then Succeeded else Failed) :: r)
            | None => None
            end).
    rewrite 3!run_steps_skip by (by apply Hskip).
    reflexivity.
  - apply run_steps_cascade.
    apply (preview_steps_ind
             (fun st => forall ok', step_enabled ok' c st = Some ok'));
      intros ok';
      solve [ rewrite guard_value by reflexivity; rewrite Hc;
              by rewrite andb_true_r
            | by apply unguarded_value ].
Qed.

Lemma cascade_lookup (bs : list bool) :
  forall (ok : bool) (i : nat) (b : bool),
    bs !! i = Some b ->
    cascade ok bs !! i =
    Some (if ok && forallb id (take i bs)
          then if b then Succeeded else Failed
          else Skipped).
Proof.
  induction bs as [|b0 bs IH]; intros ok i b Hi; [done|].
  destruct i as [|i].
  - injection Hi as ->. simpl. by rewrite andb_true_r.
  - simpl in Hi. simpl. rewrite (IH _ _ _ Hi).
    unfold id at 2. by rewrite andb_assoc.
Qed.

Lemma forallb_take_map (succeeds : yaml -> bool) (sts : list yaml) (i : nat) :
  forallb id (take i (map succeeds sts)) = forallb succeeds (take i sts).
Proof.
  revert i. induction sts as [|st sts IH]; intros [|i]; simpl; try done.
  by rewrite IH.
Qed.

(** X1. For the actions opened, synchronize and reopened the guards change
    nothing: a step of the preview job runs exactly when every step before it
    succeeded, and reports its own outcome. *)
Theorem other_actions_stop_at_first_failure (succeeds : yaml -> bool)
    (c : context) :
  event_action c ∈ ["opened"; "synchronize"; "reopened"] ->
  exists r, run_job succeeds c preview_job = Some r /\
    forall i st, steps preview_job !! i = Some st ->
      r !! i =
      Some (if forallb succeeds (take i (steps preview_job))
            then if succeeds st then Succeeded else Failed
            else Skipped).
Proof.
  intros Hact. eexists. split; [apply preview_statuses|].
  assert (Hc : closed_action c = false).
  { unfold closed_action.
    repeat (apply elem_of_cons in Hact as [->|Hact]; [reflexivity|]).
    by apply elem_of_nil in Hact. }
  rewrite Hc. intros i st Hi.
  change (steps preview_job) with preview_steps in *.
  rewrite (cascade_lookup _ true i (succeeds st)).
  - by rewrite forallb_take_map.
  - change (map succeeds preview_steps) with (succeeds <$> preview_steps).
    by rewrite list_lookup_fmap, Hi.
Qed.

Lemma other_actions_stop_at_first_failure_witness :
  run_job build_fails opened_context preview_job =
  Some [Succeeded; Succeeded; Succeeded; Failed; Skipped; Skipped].
Proof.
  destruct (other_actions_stop_at_first_failure build_fails opened_context)
    as (r & Hr & _).
  { apply list_elem_of_here. }
  reflexivity.
Defined.

(** X2. When the build fails, or does not run, the build logs are not dumped
    and no artifact is uploaded, whatever the event. *)
Theorem failed_build_dumps_no_logs (succeeds : yaml -> bool) (c : context) :
  succeeds build_step = false ->
  exists r, run_job succeeds c preview_job = Some r /\
    r !! 4 = Some Skipped /\ r !! 5 = Some Skipped.
Proof.
  intros Hb. eexists. split; [apply preview_statuses|].
  destruct (closed_action c); [by split|].
  rewrite preview_steps_eq. simpl. rewrite Hb.
  by destruct (succeeds checkout_step), (succeeds cache_step),
       (succeeds setup_pixi_step).
Qed.

Lemma failed_build_dumps_no_logs_witness :
  exists r, run_job build_fails opened_context preview_job = Some r /\
    r !! 4 = Some Skipped /\ r !! 5 = Some Skipped.
Proof. apply failed_build_dumps_no_logs. reflexivity. Defined.

(** X3. The artifact is uploaded exactly when the action is not closed and all
    six steps succeed. *)
Theorem upload_needs_every_step (succeeds : yaml -> bool) (c : context) :
  exists r, run_job succeeds c preview_job = Some r /\
    (r !! 5 = Some Succeeded <->
     closed_action c = false /\
     forall st, st ∈ steps preview_job -> succeeds st = true).
Proof.
  eexists. split; [apply preview_statuses|].
  destruct (closed_action c).
  - split; [done | by intros [? _]].
  - rewrite preview_steps_eq. simpl. split.
    + intros H. split; [done|].
      apply preview_steps_ind;
        destruct (succeeds checkout_step), (succeeds cache_step),
          (succeeds setup_pixi_step), (succeeds build_step),
          (succeeds dump_logs_step), (succeeds upload_step);
        solve [reflexivity | discriminate H].
    + intros [_ H].
      change (steps preview_job) with preview_steps in H.
      rewrite preview_steps_eq in H.
      rewrite !H by (repeat first [apply list_elem_of_here
                                  | apply list_elem_of_further]).
      reflexivity.
Qed.

End JobFacts.

(** ** Runs of different pull requests; closing a pull request *)

Module SchedulerFacts.
Import Text Yaml Workflow TextFacts WorkflowFacts JobFacts.

(** X4. A run that starts leaves the runs of other refs as they are: they stay
    in progress and are not cancelled. *)
Theorem start_leaves_other_refs (q : queue) (r r' : run) :
  r' ∈ in_progress q ->
  run_ref r' <> run_ref r ->
  let q' := sched_step pull_request_build q (Start r) in
  r' ∈ in_progress q' /\ (r' ∈ cancelled q' -> r' ∈ cancelled q).
Proof.
  intros Hin Href. simpl. unfold enqueue.
  change (cancel_in_progress pull_request_build) with true. cbv iota.
  assert (Hother : same_group pull_request_build r r' = false).
  { destruct (same_group pull_request_build r r') eqn:E; [|done].
    apply same_group_ref in E. congruence. }
  destruct (existsb (same_group pull_request_build r) (in_progress q)).
  - simpl. split.
    + apply list_elem_of_further, list_elem_of_In, filter_In.
      split; [by apply list_elem_of_In | by rewrite Hother].
    + rewrite !elem_of_app. intros [H|[H|H]]; [| |done].
      * apply list_elem_of_In, filter_In in H as [_ H]. congruence.
      * apply list_elem_of_In, filter_In in H as [_ H]. congruence.
  - simpl. split; [by apply list_elem_of_further | done].
Qed.

Lemma start_leaves_other_refs_witness :
  pr8 1 ∈ in_progress (schedule pull_request_build [Start (pr8 1); Start (pr7 2)]).
Proof.
  apply (start_leaves_other_refs
           (schedule pull_request_build [Start (pr8 1)]) (pr7 2) (pr8 1)).
  - apply list_elem_of_here.
  - discriminate.
Defined.

(** X6. A run leaves the runs in progress only by finishing or by being
    replaced by a newer run of its ref. *)
Theorem run_ends_by_finish_or_newer_run (q : queue) (e : sched_event) (r : run) :
  pending q = [] ->
  r ∈ in_progress q ->
  r ∉ in_progress (sched_step pull_request_build q e) ->
  e = Finish (run_id r) \/
  exists r', e = Start r' /\ run_ref r' = run_ref r /\
             r ∈ cancelled (sched_step pull_request_build q e).
Proof.
  intros Hp Hin Hout. destruct e as [r'|id].
  - right. exists r'. split; [done|].
    simpl in *. unfold enqueue in *.
    change (cancel_in_progress pull_request_build) with true in *. cbv iota in *.
    destruct (same_group pull_request_build r' r) eqn:Hs.
    + pose proof Hs as Href. apply same_group_ref in Href.
      split; [done|].
      assert (Hex : existsb (same_group pull_request_build r') (in_progress q) = true).
      { apply existsb_exists. exists r. split; [by apply list_elem_of_In|done]. }
      rewrite Hex. simpl. apply elem_of_app. left.
      apply list_elem_of_In, filter_In. split; [by apply list_elem_of_In|done].
    + exfalso. apply Hout.
      destruct (existsb _ _); simpl.
      * apply list_elem_of_further, list_elem_of_In, filter_In.
        split; [by apply list_elem_of_In | by rewrite Hs].
      * by apply list_elem_of_further.
  - left. f_equal. simpl in Hout. unfold finish in Hout. rewrite Hp in Hout.
    simpl in Hout.
    destruct (Nat.eqb (run_id r) id) eqn:E; [by apply Nat.eqb_eq in E|].
    exfalso. apply Hout. apply list_elem_of_In, filter_In.
    split; [by apply list_elem_of_In | by rewrite E].
Qed.

Lemma run_ends_by_finish_or_newer_run_witness :
  Finish 1 = Finish (run_id (pr7 1)) \/
  exists r', Finish 1 = Start r' /\ run_ref r' = run_ref (pr7 1) /\
    pr7 1 ∈ cancelled
      (sched_step pull_request_build
         (schedule pull_request_build [Start (pr7 1)]) (Finish 1)).
Proof.
  apply (run_ends_by_finish_or_newer_run
           (schedule pull_request_build [Start (pr7 1)]) (Finish 1) (pr7 1)).
  - reflexivity.
  - apply list_elem_of_here.
  - apply not_elem_of_nil.
Defined.

(** X7. Closing a pull request (with a change outside [.devcontainer/])
    triggers the workflow; the run it starts cancels the build of that pull
    request that is in progress, and itself builds nothing: only setup-pixi
    runs. *)
Theorem closing_cancels_the_build (q : queue) (r r' : run)
    (succeeds : yaml -> bool) :
  ev_name (run_event r) = "pull_request" ->
  ev_action (run_event r) = "closed" ->
  (exists p, p ∈ ev_paths (run_event r) /\
             ~ exists rest, p = ".devcontainer/" +:+ rest) ->
  r' ∈ in_progress q ->
  run_ref r' = run_ref r ->
  triggers pull_request_build (run_event r) = true /\
  r' ∈ cancelled (sched_step pull_request_build q (Start r)) /\
  in_progress (sched_step pull_request_build q (Start r)) =
    r :: List.filter (fun x => negb (String.eqb (run_ref x) (run_ref r)))
           (in_progress q) /\
  run_job succeeds (context_of pull_request_build r) preview_job =
    Some [Skipped; Skipped;
          if succeeds setup_pixi_step then Succeeded else Failed;
          Skipped; Skipped; Skipped].
Proof.
  intros Hname Hact Hpaths Hin Href.
  assert (Hex : existsb (same_group pull_request_build r) (in_progress q) = true).
  { apply existsb_exists. exists r'. split; [by apply list_elem_of_In|].
    by apply same_group_ref. }
  split; [|split; [|split]].
  - unfold triggers. rewrite trigger_of_event, Hname. simpl.
    apply andb_true_iff. split.
    + unfold activity_ok. simpl. rewrite Hact. reflexivity.
    + by apply paths_ok_spec.
  - simpl. unfold enqueue. rewrite Hex.
    change (cancel_in_progress pull_request_build) with true. cbv iota. simpl.
    apply elem_of_app. left. apply list_elem_of_In, filter_In.
    split; [by apply list_elem_of_In | by apply same_group_ref].
  - simpl. unfold enqueue. rewrite Hex.
    change (cancel_in_progress pull_request_build) with true. cbv iota. simpl.
    f_equal. apply filter_ext. intros x. f_equal.
    destruct (same_group pull_request_build r x) eqn:E.
    + apply same_group_ref in E. symmetry. by apply String.eqb_eq.
    + symmetry. apply String.eqb_neq. intros Hx.
      symmetry in Hx. apply same_group_ref in Hx. congruence.
  - rewrite preview_statuses.
    assert (Hc : closed_action (context_of pull_request_build r) = true).
    { unfold closed_action, context_of. simpl. by rewrite Hact. }
    by rewrite Hc.
Qed.

Lemma closing_cancels_the_build_witness :
  triggers pull_request_build (run_event (pr7_closed 2)) = true /\
  pr7 1 ∈ cancelled
    (sched_step pull_request_build
       (schedule pull_request_build [Start (pr8 0); Start (pr7 1)])
       (Start (pr7_closed 2))) /\
  in_progress
    (sched_step pull_request_build
       (schedule pull_request_build [Start (pr8 0); Start (pr7 1)])
       (Start (pr7_closed 2))) = [pr7_closed 2; pr8 0].
Proof.
  destruct (closing_cancels_the_build
              (schedule pull_request_build [Start (pr8 0); Start (pr7 1)])
              (pr7_closed 2) (pr7 1) (fun _ => true))
    as (Ht & Hc & Hp & _).
  - reflexivity.
  - reflexivity.
  - exists "README.md". split; [apply list_elem_of_here|].
    intros [rest H]. vm_compute in H. discriminate H.
  - apply list_elem_of_here.
  - reflexivity.
  - split; [exact Ht|]. split; [exact Hc|]. reflexivity.
Defined.

End SchedulerFacts.

(** ** Evaluation rules

    One rule for each step of the evaluator the cells below need, so that a
    cell can be run in a kernel of which only some bindings are known. *)

Module EvalRules.
Import Text Python.

Lemma bind_inr {A B} (m : M A) (k : A -> M B) (st st1 : state) (a : A) :
  m st = inr (a, st1) -> bind m k st = k a st1.
Proof. intros H. unfold bind. by rewrite H. Qed.

Lemma mapM_cons_eq {A B} (f : A -> M B) (a : A) (l : list A) (st : state) :
  mapM f (a :: l) st =
  match f a st with
  | inl e => inl e
  | inr (b, st1) =>
      match mapM f l st1 with
      | inl e => inl e
      | inr (bs, st2) => inr (b :: bs, st2)
      end
  end.
Proof.
  simpl. unfold bind. destruct (f a st) as [e|[b st1]]; [done|].
  by destruct (mapM f l st1) as [e|[bs st2]].
Qed.

Section Rules.
Variable n : nat.

Lemma eval_Str (q : quote) (s : string) (st : state) :
  eval (S n) (Str q s) st = inr (VStr s, st).
Proof. reflexivity. Qed.

Lemma eval_Num (lit : string) (st : state) :
  eval (S n) (Num lit) st = inr (VNum lit, st).
Proof. reflexivity. Qed.

Lemma eval_Name_global (x : string) (v : value) (g : gmap string value)
    (tr : list op) :
  g !! x = Some v ->
  eval (S n) (Name x) (Build_state g None tr) = inr (v, Build_state g None tr).
Proof. intros H. simpl. unfold lookup_name. simpl. by rewrite H. Qed.

Lemma eval_Name_local (x : string) (v : value) (g l : gmap string value)
    (tr : list op) :
  l !! x = Some v ->
  eval (S n) (Name x) (Build_state g (Some l) tr) = inr (v, Build_state g (Some l) tr).
Proof. intros H. simpl. unfold lookup_name. simpl. by rewrite H. Qed.

Lemma eval_Name_outer (x : string) (v : value) (g l : gmap string value)
    (tr : list op) :
  l !! x = None -> g !! x = Some v ->
  eval (S n) (Name x) (Build_state g (Some l) tr) = inr (v, Build_state g (Some l) tr).
Proof. intros Hl Hg. simpl. unfold lookup_name. simpl. by rewrite Hl, Hg. Qed.

Lemma eval_Name_unbound (x : string) (g l : gmap string value)
    (tr : list op) :
  l !! x = None -> g !! x = None -> x ∉ builtins ->
  eval (S n) (Name x) (Build_state g (Some l) tr) = inl (NameError x).
Proof.
  intros Hl Hg Hb. simpl. unfold lookup_name. simpl. rewrite Hl, Hg.
  by rewrite bool_decide_eq_false_2.
Qed.

Lemma eval_Attr (e : expr) (a : string) (v : value) (st : state)
    (g : gmap string value) (l : option (gmap string value)) (tr : list op) :
  eval n e st = inr (v, Build_state g l tr) ->
  eval (S n) (Attr e a) st = inr (VAttr v a, Build_state g l (tr ++ [OpAttr v a])).
Proof. intros H. simpl. unfold bind. by rewrite H. Qed.

Lemma eval_Attr_error (e : expr) (a : string) (err : error) (st : state) :
  eval n e st = inl err -> eval (S n) (Attr e a) st = inl err.
Proof. intros H. simpl. unfold bind. by rewrite H. Qed.

Lemma eval_Index_one (e i : expr) (v iv : value) (st st1 : state)
    (g : gmap string value) (l : option (gmap string value)) (tr : list op) :
  eval n e st = inr (v, st1) ->
  eval n i st1 = inr (iv, Build_state g l tr) ->
  eval (S n) (Index e [i]) st =
  inr (VIndex v [iv], Build_state g l (tr ++ [OpIndex v [iv]])).
Proof.
  intros He Hi. simpl. unfold bind. rewrite He. simpl. unfold bind.
  by rewrite Hi.
Qed.

(** A call of a library function or method with one positional argument. *)
Lemma eval_Call_one (f a : expr) (rv av : value) (m : string) (st st1 : state)
    (g : gmap string value) (l : option (gmap string value)) (tr : list op) :
  eval n f st = inr (VAttr rv m, st1) ->
  eval n a st1 = inr (av, Build_state g l tr) ->
  eval (S n) (Call f [(None, a)]) st =
  inr (VCall (VAttr rv m) [(None, av)],
       Build_state g l (tr ++ [OpCall (VAttr rv m) [(None, av)]])).
Proof.
  intros Hf Ha. simpl. unfold bind. rewrite Hf. simpl. unfold bind.
  by rewrite Ha.
Qed.

Lemma eval_Call_callee_error (f : expr) (args : list (option string * expr))
    (err : error) (st : state) :
  eval n f st = inl err -> eval (S n) (Call f args) st = inl err.
Proof. intros H. simpl. unfold bind. by rewrite H. Qed.

(** A call without arguments of a function defined in the notebook: the body
    runs in a fresh local scope and the caller's scope is restored. *)
Lemma eval_Call_function (f : expr) (name : string) (body : list stmt)
    (v : value) (st : state) (g g' : gmap string value)
    (l l' : option (gmap string value)) (tr tr' : list op) :
  eval n f st = inr (VFunc name [] body, Build_state g l tr) ->
  run_block (exec n) body
    (Build_state g (Some ∅) (tr ++ [OpCall (VFunc name [] body) []])) =
    inr (Returned v, Build_state g' l' tr') ->
  eval (S n) (Call f []) st = inr (v, Build_state g' l tr').
Proof.
  intros Hf Hb. simpl. unfold bind. rewrite Hf. simpl.
  unfold bind. simpl. by rewrite Hb.
Qed.

Lemma eval_Call_function_error (f : expr) (name : string) (body : list stmt)
    (err : error) (st : state) (g : gmap string value)
    (l : option (gmap string value)) (tr : list op) :
  eval n f st = inr (VFunc name [] body, Build_state g l tr) ->
  run_block (exec n) body
    (Build_state g (Some ∅) (tr ++ [OpCall (VFunc name [] body) []])) = inl err ->
  eval (S n) (Call f []) st = inl err.
Proof.
  intros Hf Hb. simpl. unfold bind. rewrite Hf. simpl.
  unfold bind. simpl. by rewrite Hb.
Qed.

(** A call of such a function with an argument it has no parameter for. *)
Lemma eval_Call_function_arity (f a : expr) (name : string)
    (body : list stmt) (av : value) (st st1 st2 : state) :
  eval n f st = inr (VFunc name [] body, st1) ->
  eval n a st1 = inr (av, st2) ->
  eval (S n) (Call f [(None, a)]) st =
  inl (TypeError "arguments do not match the parameters").
Proof.
  intros Hf Ha. simpl. unfold bind. rewrite Hf. simpl. unfold bind.
  by rewrite Ha.
Qed.

Lemma dict_entries_nil (st : state) :
  mapM (fun kv : expr * expr =>
          do k <- eval n kv.1; do v <- eval n kv.2; ret (k, v)) [] st =
  inr ([], st).
Proof. reflexivity. Qed.

Lemma dict_entries_cons (k v : expr) (kvs : list (expr * expr))
    (kv' vv : value) (vs : list (value * value)) (st st1 st2 st3 : state) :
  eval n k st = inr (kv', st1) ->
  eval n v st1 = inr (vv, st2) ->
  mapM (fun kv : expr * expr =>
          do k <- eval n kv.1; do v <- eval n kv.2; ret (k, v)) kvs st2 =
    inr (vs, st3) ->
  mapM (fun kv : expr * expr =>
          do k <- eval n kv.1; do v <- eval n kv.2; ret (k, v))
    ((k, v) :: kvs) st =
  inr ((kv', vv) :: vs, st3).
Proof.
  intros Hk Hv Hr. rewrite mapM_cons_eq.
  assert (He : (fun kv : expr * expr =>
                  do k <- eval n kv.1; do v <- eval n kv.2; ret (k, v))
                 (k, v) st = inr ((kv', vv), st2)).
  { cbv beta. unfold bind. simpl fst. simpl snd. by rewrite Hk, Hv. }
  by rewrite He, Hr.
Qed.

Lemma eval_DictLit (ly : layout) (kvs : list (expr * expr))
    (vs : list (value * value)) (st st' : state) :
  mapM (fun kv : expr * expr =>
          do k <- eval n kv.1; do v <- eval n kv.2; ret (k, v)) kvs st =
    inr (vs, st') ->
  eval (S n) (DictLit ly kvs) st = inr (VDict vs, st').
Proof. intros H. cbn [eval]. by rewrite (bind_inr _ _ _ _ _ H). Qed.

Lemma exec_Def (f : string) (ps : list string) (body : list stmt)
    (g : gmap string value) (tr : list op) :
  exec (S n) (Def f ps body) (Build_state g None tr) =
  inr (Normal, Build_state (<[f := VFunc f ps body]> g) None tr).
Proof. reflexivity. Qed.

Lemma exec_Assign_global (x : string) (e : expr) (v : value) (st : state)
    (g : gmap string value) (tr : list op) :
  eval n e st = inr (v, Build_state g None tr) ->
  exec (S n) (Assign (Name x) e) st = inr (Normal, Build_state (<[x := v]> g) None tr).
Proof. intros H. simpl. unfold bind. by rewrite H. Qed.

Lemma exec_Assign_local (x : string) (e : expr) (v : value) (st : state)
    (g l : gmap string value) (tr : list op) :
  eval n e st = inr (v, Build_state g (Some l) tr) ->
  exec (S n) (Assign (Name x) e) st =
  inr (Normal, Build_state g (Some (<[x := v]> l)) tr).
Proof. intros H. simpl. unfold bind. by rewrite H. Qed.

Lemma exec_Assign_error (x : string) (e : expr) (err : error) (st : state) :
  eval n e st = inl err -> exec (S n) (Assign (Name x) e) st = inl err.
Proof. intros H. simpl. unfold bind. by rewrite H. Qed.

Lemma exec_Expr_error (e : expr) (err : error) (st : state) :
  eval n e st = inl err -> exec (S n) (Expr e) st = inl err.
Proof. intros H. simpl. unfold bind. by rewrite H. Qed.

Lemma exec_Return (e : expr) (v : value) (st : state)
    (g l : gmap string value) (tr : list op) :
  eval n e st = inr (v, Build_state g (Some l) tr) ->
  exec (S n) (Return e) st = inr (Returned v, Build_state g (Some l) tr).
Proof. intros H. simpl. unfold bind. by rewrite H. Qed.

End Rules.

Lemma run_block_normal (step : stmt -> M signal) (s : stmt) (b : list stmt)
    (st st1 : state) (r : error + signal * state) :
  step s st = inr (Normal, st1) ->
  run_block step b st1 = r ->
  run_block step (s :: b) st = r.
Proof. intros Hs <-. simpl. unfold bind. by rewrite Hs. Qed.

Lemma run_block_returned (step : stmt -> M signal) (s : stmt) (b : list stmt)
    (v : value) (st st1 : state) :
  step s st = inr (Returned v, st1) ->
  run_block step (s :: b) st = inr (Returned v, st1).
Proof. intros Hs. simpl. unfold bind. by rewrite Hs. Qed.

Lemma run_block_error (step : stmt -> M signal) (s : stmt) (b : list stmt)
    (err : error) (st : state) :
  step s st = inl err -> run_block step (s :: b) st = inl err.
Proof. intros Hs. simpl. unfold bind. by rewrite Hs. Qed.

End EvalRules.

(** ** The function [air_as_dictionary] in any kernel *)

Module FunctionFacts.
Import Text Json Notebook Python PythonFacts EvalRules.

Ltac lookup_known :=
  first [ apply lookup_empty
        | eassumption
        | apply lookup_insert_eq
        | rewrite lookup_insert_ne by discriminate; lookup_known ].

Ltac evaluate :=
  first [ apply eval_Str
        | apply eval_Num
        | eapply eval_Name_local; lookup_known
        | eapply eval_Name_outer; lookup_known
        | eapply eval_Name_global; lookup_known
        | eapply eval_Attr; evaluate
        | eapply eval_Index_one; evaluate
        | eapply eval_Call_one; evaluate
        | eapply eval_DictLit; evaluate
        | eapply dict_entries_cons; evaluate
        | apply dict_entries_nil ].

(** X8. In a kernel where [xr] is bound to the xarray module, defining the
    function and calling it binds [air_as_dictionary] and [data] and nothing
    else: [data] is the dictionary of the five entries read from the dataset
    the function opens, and the [ds] of the function stays local. *)
Theorem air_as_dictionary_returns (g : gmap string value) (tr : list op) :
  g !! "xr" = Some (VModule "xarray") ->
  exists tr',
    run_block (exec depth) define_and_call (in_kernel g tr) =
    inr (Normal,
         in_kernel
           (<["data" := air_dictionary (VModule "xarray")]>
              (<["air_as_dictionary" := air_function]> g))
           (tr ++ tr')).
Proof.
  intros Hxr. eexists.
  cbv [define_and_call in_kernel depth air_as_dictionary xr_tutorial pos].
  eapply run_block_normal; [apply exec_Def|].
  eapply run_block_normal.
  - eapply exec_Assign_global, eval_Call_function; [evaluate|].
    eapply run_block_normal; [eapply exec_Assign_local; evaluate|].
    eapply run_block_returned, exec_Return. evaluate.
  - simpl. rewrite <- !app_assoc. reflexivity.
Qed.

Lemma air_as_dictionary_returns_witness :
  exists tr',
    run_block (exec depth) define_and_call (in_kernel xarray_only []) =
    inr (Normal,
         in_kernel
           (<["data" := air_dictionary (VModule "xarray")]>
              (<["air_as_dictionary" := air_function]> xarray_only))
           ([] ++ tr')).
Proof. apply air_as_dictionary_returns. reflexivity. Defined.

(** X9. In a kernel where [xr] is not bound (the import cell was not run)
    the definition succeeds and binds the function, leaving the rest of the
    kernel as it was; the call then finds the function, enters its body in a
    fresh local scope, and the body stops with a NameError for [xr], which
    is what the call and the whole cell end in. *)
Theorem air_as_dictionary_needs_xr (g : gmap string value) (tr : list op) :
  g !! "xr" = None ->
  let g' := <["air_as_dictionary" := air_function]> g in
  run_block (exec depth) [air_as_dictionary] (in_kernel g tr) =
    inr (Normal, in_kernel g' tr) /\
  (forall n, eval (S n) (Name "air_as_dictionary") (in_kernel g' tr) =
             inr (air_function, in_kernel g' tr)) /\
  (forall n, run_block (exec (5 + n)) (body_of air_as_dictionary)
               {| globals := g'; locals := Some ∅;
                  trace := tr ++ [OpCall air_function []] |} =
             inl (NameError "xr")) /\
  run_block (exec depth)
    [Assign (Name "data") (Call (Name "air_as_dictionary") [])]
    (in_kernel g' tr) = inl (NameError "xr") /\
  run_block (exec depth) define_and_call (in_kernel g tr) =
    inl (NameError "xr").
Proof.
  intros Hxr g'.
  assert (Hbody : forall n,
            run_block (exec (5 + n)) (body_of air_as_dictionary)
              {| globals := g'; locals := Some ∅;
                 trace := tr ++ [OpCall air_function []] |} =
            inl (NameError "xr")).
  { intros n. change (5 + n) with (S (S (S (S (S n))))).
    cbv [body_of air_as_dictionary xr_tutorial pos].
    eapply run_block_error, exec_Assign_error, eval_Call_callee_error,
      eval_Attr_error, eval_Attr_error, eval_Name_unbound.
    - apply lookup_empty.
    - subst g'. by rewrite lookup_insert_ne.
    - apply (bool_decide_eq_false_1 _). reflexivity. }
  assert (Hcall : run_block (exec depth)
                    [Assign (Name "data") (Call (Name "air_as_dictionary") [])]
                    (in_kernel g' tr) = inl (NameError "xr")).
  { cbv [in_kernel depth].
    eapply run_block_error, exec_Assign_error, eval_Call_function_error.
    - apply eval_Name_global. subst g'. apply lookup_insert_eq.
    - apply (Hbody 57). }
  split; [reflexivity|]. split.
  { intros n. apply eval_Name_global. subst g'. apply lookup_insert_eq. }
  split; [exact Hbody|]. split; [exact Hcall|].
  cbv [define_and_call in_kernel depth air_as_dictionary xr_tutorial pos].
  eapply run_block_normal; [apply exec_Def|].
  exact Hcall.
Qed.

Lemma air_as_dictionary_needs_xr_witness :
  run_block (exec depth) [air_as_dictionary] (in_kernel ∅ []) =
    inr (Normal, in_kernel {[ "air_as_dictionary" := air_function ]} []) /\
  run_block (exec depth) define_and_call (in_kernel ∅ []) =
    inl (NameError "xr").
Proof.
  destruct (air_as_dictionary_needs_xr ∅ []) as (Hdef & _ & _ & _ & Hall).
  { apply lookup_empty. }
  split; [exact Hdef | exact Hall].
Defined.

(** X10. The function has no parameter: a call that passes an argument is a
    TypeError, and the body does not run. *)
Theorem air_as_dictionary_takes_no_argument (g : gmap string value)
    (tr : list op) (lit : string) :
  run_block (exec depth)
    [air_as_dictionary;
     Expr (Call (Name "air_as_dictionary") [pos (Num lit)])]
    (in_kernel g tr) =
  inl (TypeError "arguments do not match the parameters").
Proof.
  cbv [in_kernel depth air_as_dictionary xr_tutorial pos].
  eapply run_block_normal; [apply exec_Def|].
  eapply run_block_error, exec_Expr_error, eval_Call_function_arity;
    evaluate.
Qed.

(** ** Cells and the cells above them *)

(** X11. Every non-empty code cell after the first one uses a name that only
    the cells above it bind: run alone in a fresh kernel it stops with a
    NameError. *)
Theorem cells_need_the_cells_above (nb : json) (code : list cell) (c : cell) :
  (nb, code) ∈ parsed ->
  c ∈ later_cells code ->
  exists x, run_notebook [c] = inl (NameError x).
Proof.
  intros Hnb Hc.
  assert (Hall : forallb (fun c => is_name_error (run_notebook [c]))
                   (later_cells code) = true).
  { unfold parsed in Hnb.
    repeat (apply elem_of_cons in Hnb as [[= -> ->]|Hnb]; [by vm_compute|]).
    by apply elem_of_nil in Hnb. }
  apply (forallb_elem_of _ _ Hall) in Hc. cbv beta in Hc.
  destruct (run_notebook [c]) as [[x| | |]|s]; try discriminate Hc.
  by exists x.
Qed.

Lemma cells_need_the_cells_above_witness :
  exists x, run_notebook [precipitation_exercise] = inl (NameError x).
Proof.
  apply (cells_need_the_cells_above data_structures data_structures_code).
  - apply list_elem_of_further, list_elem_of_here.
  - apply list_elem_of_In, filter_In. split; [|reflexivity].
    apply list_elem_of_In, (list_elem_of_lookup_2 _ 29). reflexivity.
Defined.

End FunctionFacts.

(** ** The stored form of the notebooks *)

Module StorageFacts.
Import Text Json Notebook PythonFacts.

(** X12. The notebooks are stored without results: every code cell has an
    empty list of outputs and no execution count. *)
Theorem code_cells_are_stripped (nb c : json) :
  nb ∈ notebooks -> c ∈ cells nb -> is_code c = true -> stripped c = true.
Proof.
  intros Hnb Hc Hcode.
  assert (Hall : forallb (fun c => implb (is_code c) (stripped c)) (cells nb)
                 = true).
  { unfold notebooks in Hnb.
    repeat (apply elem_of_cons in Hnb as [->|Hnb]; [by vm_compute|]).
    by apply elem_of_nil in Hnb. }
  apply (forallb_elem_of _ _ Hall) in Hc. cbv beta in Hc.
  by rewrite Hcode in Hc.
Qed.

Lemma code_cells_are_stripped_witness :
  exists c, cells basic_computation !! 1 = Some c /\ stripped c = true.
Proof.
  eexists. split; [reflexivity|].
  apply (code_cells_are_stripped basic_computation).
  - apply list_elem_of_here.
  - apply (list_elem_of_lookup_2 _ 1). reflexivity.
  - reflexivity.
Defined.

End StorageFacts.
